(** * The Jeopardy turn engine of ProntoBots ([src/jeopardy.py])

    A shallow embedding of [JeopardyGame] and of the command handlers of
    [JeopardyBot], followed by the properties of the question life cycle,
    buzz arbitration, daily-double wagering and Final Jeopardy.

    Conventions of the embedding.
    - The game's [state] dictionary is the record [GameState]; a handler
      is a function from the game before the call to the game after it
      together with the messages it sent through [send_message], in order.
    - A Python exception that escapes a handler is the result [Raise].
    - Wall-clock readings ([time.time()]) and random draws
      ([random.random()], [random.sample], [random.choice]) are explicit
      arguments of the handlers that consume them.
    - [str.lower], [str.split] and [int] on text are the fields of the class
      [PyText]: the general theorems hold for any implementation of them,
      and the runs on concrete commands use the ASCII one, [ascii_text].
    - An exception that escapes a handler ends the bot, so a raising call
      has no state after it. *)

From Stdlib Require Import QArith.
From Stdlib Require Import Ascii String.
From stdpp Require Import gmap strings list pretty sorting.

Close Scope Q_scope.
Local Open Scope string_scope.
Local Open Scope list_scope.
Local Open Scope Z_scope.

(** ** Python built-ins *)

(** Text operations whose full Unicode behaviour is not reproduced here.
    [py_int s] is [None] where Python raises [ValueError]. *)
Class PyText := {
  py_lower : string → string;
  py_split : string → list string;
  py_int : string → option Z
}.

(** The newline character of the message templates. *)
Definition nl : string := String (Ascii.ascii_of_nat 10) EmptyString.

(** [str(n)] for an integer. *)
Definition py_str (n : Z) : string := pretty n.

(** [sep.join(l)]. *)
Fixpoint py_join (sep : string) (l : list string) : string :=
  match l with
  | [] => ""
  | [x] => x
  | x :: l' => x +:+ sep +:+ py_join sep l'
  end.

(** [s.startswith(p)]. *)
Definition py_startswith (s p : string) : bool := String.prefix p s.

(** [x in l] for a list. *)
Definition py_in `{EqDecision A} (x : A) (l : list A) : bool :=
  bool_decide (x ∈ l).

(** [l.remove(x)]: drops the first element equal to [x]. The callers test
    membership first, so the [ValueError] of an absent element is never
    reached and the list is returned as it is there. *)
Fixpoint list_remove `{EqDecision A} (x : A) (l : list A) : list A :=
  match l with
  | [] => []
  | y :: l' => if decide (x = y) then l' else y :: list_remove x l'
  end.

(** [sorted(l, key=key)]: CPython's sort is stable, so is this insertion
    sort, and a stable sort of a list is unique. *)
Fixpoint insert_by {A} (key : A → Z) (x : A) (l : list A) : list A :=
  match l with
  | [] => [x]
  | y :: l' => if key x <? key y then x :: l else y :: insert_by key x l'
  end.

Definition sorted_by {A} (key : A → Z) (l : list A) : list A :=
  foldl (λ acc x, insert_by key x acc) [] l.

(** [sorted(l, key=key, reverse=True)]: CPython reverses the list, sorts
    it stably and reverses the result, which keeps equal keys in their
    original order. *)
Definition sorted_by_reverse {A} (key : A → Z) (l : list A) : list A :=
  reverse (sorted_by key (reverse l)).

(** *** Insertion-ordered dictionaries

    [scores] is iterated by Final Jeopardy's leaderboard, so the order of
    insertion is part of its value. *)
Definition dict (V : Type) : Type := list (string * V).

Fixpoint dict_lookup {V} (d : dict V) (k : string) : option V :=
  match d with
  | [] => None
  | (k', v) :: d' => if decide (k = k') then Some v else dict_lookup d' k
  end.

(** [d.get(k, dflt)]. *)
Definition dict_get {V} (d : dict V) (k : string) (dflt : V) : V :=
  default dflt (dict_lookup d k).

(** [d[k] = v]: in place for a present key, appended for a new one. *)
Fixpoint dict_set {V} (d : dict V) (k : string) (v : V) : dict V :=
  match d with
  | [] => [(k, v)]
  | (k', v') :: d' =>
      if decide (k = k') then (k, v) :: d' else (k', v') :: dict_set d' k v
  end.

(** [d.setdefault(k, v)], for its effect on [d]. *)
Definition dict_setdefault {V} (d : dict V) (k : string) (v : V) : dict V :=
  match dict_lookup d k with
  | Some _ => d
  | None => dict_set d k v
  end.

(** ** Data model *)

(** A record of [jeopardy_questions.json]. [points] is the value of
    [int(q['points'])]. *)
Record Question := {
  category_id : string;
  points : Z;
  question : string;
  answers : list string
}.

Global Instance Question_eq_dec : EqDecision Question.
Proof. solve_decision. Defined.

(** Where a message goes: the shared game channel or a private one. *)
Inductive bubble :=
  | MAIN_BUBBLE_ID
  | DM (id : string).

Global Instance bubble_eq_dec : EqDecision bubble.
Proof. solve_decision. Defined.

(** One call of [send_message(text, bubble_id, [])]. *)
Definition message : Type := string * bubble.

Inductive exn := ValueError | TypeError | KeyError | IndexError.

Inductive result (A : Type) :=
  | Ok (a : A)
  | Raise (e : exn).
Arguments Ok {A} a.
Arguments Raise {A} e.

(** [JeopardyGame.state]. [buzzed_in_time] is a reading of [time.time()]
    in seconds. *)
Record GameState := {
  running : bool;
  round : Z;
  scores : dict Z;
  final_registered : list string;
  final_answers : dict string;
  answered_users : gset Z;
  daily_doubles : gset (string * Z);
  daily_double_used : gset (string * Z);
  buzzed_in : option Z;
  buzzed_in_time : Q;
  current_question : option Question;
  current_chooser : option Z;
  categories : list string;
  board : list Question;
  buzzed : list Z;
  buzz_open : bool
}.

(** [JeopardyGame]: the mutable state with the two corpora loaded from
    [jeopardy_questions.json] and [jeopardy_catagories.json]. *)
Record JeopardyGame := {
  state : GameState;
  questions : list Question;
  all_categories : list string
}.

(** Assignments to one key of [state]. *)
Definition set_running (v : bool) (s : GameState) : GameState :=
  {| running := v; round := round s; scores := scores s;
     final_registered := final_registered s; final_answers := final_answers s;
     answered_users := answered_users s; daily_doubles := daily_doubles s;
     daily_double_used := daily_double_used s; buzzed_in := buzzed_in s;
     buzzed_in_time := buzzed_in_time s; current_question := current_question s;
     current_chooser := current_chooser s; categories := categories s;
     board := board s; buzzed := buzzed s; buzz_open := buzz_open s |}.

Definition set_scores (v : dict Z) (s : GameState) : GameState :=
  {| running := running s; round := round s; scores := v;
     final_registered := final_registered s; final_answers := final_answers s;
     answered_users := answered_users s; daily_doubles := daily_doubles s;
     daily_double_used := daily_double_used s; buzzed_in := buzzed_in s;
     buzzed_in_time := buzzed_in_time s; current_question := current_question s;
     current_chooser := current_chooser s; categories := categories s;
     board := board s; buzzed := buzzed s; buzz_open := buzz_open s |}.

Definition set_final_registered (v : list string) (s : GameState) : GameState :=
  {| running := running s; round := round s; scores := scores s;
     final_registered := v; final_answers := final_answers s;
     answered_users := answered_users s; daily_doubles := daily_doubles s;
     daily_double_used := daily_double_used s; buzzed_in := buzzed_in s;
     buzzed_in_time := buzzed_in_time s; current_question := current_question s;
     current_chooser := current_chooser s; categories := categories s;
     board := board s; buzzed := buzzed s; buzz_open := buzz_open s |}.

Definition set_daily_double_used (v : gset (string * Z)) (s : GameState)
    : GameState :=
  {| running := running s; round := round s; scores := scores s;
     final_registered := final_registered s; final_answers := final_answers s;
     answered_users := answered_users s; daily_doubles := daily_doubles s;
     daily_double_used := v; buzzed_in := buzzed_in s;
     buzzed_in_time := buzzed_in_time s; current_question := current_question s;
     current_chooser := current_chooser s; categories := categories s;
     board := board s; buzzed := buzzed s; buzz_open := buzz_open s |}.

Definition set_buzzed_in (v : option Z) (s : GameState) : GameState :=
  {| running := running s; round := round s; scores := scores s;
     final_registered := final_registered s; final_answers := final_answers s;
     answered_users := answered_users s; daily_doubles := daily_doubles s;
     daily_double_used := daily_double_used s; buzzed_in := v;
     buzzed_in_time := buzzed_in_time s; current_question := current_question s;
     current_chooser := current_chooser s; categories := categories s;
     board := board s; buzzed := buzzed s; buzz_open := buzz_open s |}.

Definition set_buzzed_in_time (v : Q) (s : GameState) : GameState :=
  {| running := running s; round := round s; scores := scores s;
     final_registered := final_registered s; final_answers := final_answers s;
     answered_users := answered_users s; daily_doubles := daily_doubles s;
     daily_double_used := daily_double_used s; buzzed_in := buzzed_in s;
     buzzed_in_time := v; current_question := current_question s;
     current_chooser := current_chooser s; categories := categories s;
     board := board s; buzzed := buzzed s; buzz_open := buzz_open s |}.

Definition set_current_question (v : option Question) (s : GameState)
    : GameState :=
  {| running := running s; round := round s; scores := scores s;
     final_registered := final_registered s; final_answers := final_answers s;
     answered_users := answered_users s; daily_doubles := daily_doubles s;
     daily_double_used := daily_double_used s; buzzed_in := buzzed_in s;
     buzzed_in_time := buzzed_in_time s; current_question := v;
     current_chooser := current_chooser s; categories := categories s;
     board := board s; buzzed := buzzed s; buzz_open := buzz_open s |}.

Definition set_current_chooser (v : option Z) (s : GameState) : GameState :=
  {| running := running s; round := round s; scores := scores s;
     final_registered := final_registered s; final_answers := final_answers s;
     answered_users := answered_users s; daily_doubles := daily_doubles s;
     daily_double_used := daily_double_used s; buzzed_in := buzzed_in s;
     buzzed_in_time := buzzed_in_time s; current_question := current_question s;
     current_chooser := v; categories := categories s;
     board := board s; buzzed := buzzed s; buzz_open := buzz_open s |}.

Definition set_categories (v : list string) (s : GameState) : GameState :=
  {| running := running s; round := round s; scores := scores s;
     final_registered := final_registered s; final_answers := final_answers s;
     answered_users := answered_users s; daily_doubles := daily_doubles s;
     daily_double_used := daily_double_used s; buzzed_in := buzzed_in s;
     buzzed_in_time := buzzed_in_time s; current_question := current_question s;
     current_chooser := current_chooser s; categories := v;
     board := board s; buzzed := buzzed s; buzz_open := buzz_open s |}.

Definition set_board (v : list Question) (s : GameState) : GameState :=
  {| running := running s; round := round s; scores := scores s;
     final_registered := final_registered s; final_answers := final_answers s;
     answered_users := answered_users s; daily_doubles := daily_doubles s;
     daily_double_used := daily_double_used s; buzzed_in := buzzed_in s;
     buzzed_in_time := buzzed_in_time s; current_question := current_question s;
     current_chooser := current_chooser s; categories := categories s;
     board := v; buzzed := buzzed s; buzz_open := buzz_open s |}.

Definition set_buzzed (v : list Z) (s : GameState) : GameState :=
  {| running := running s; round := round s; scores := scores s;
     final_registered := final_registered s; final_answers := final_answers s;
     answered_users := answered_users s; daily_doubles := daily_doubles s;
     daily_double_used := daily_double_used s; buzzed_in := buzzed_in s;
     buzzed_in_time := buzzed_in_time s; current_question := current_question s;
     current_chooser := current_chooser s; categories := categories s;
     board := board s; buzzed := v; buzz_open := buzz_open s |}.

Definition set_buzz_open (v : bool) (s : GameState) : GameState :=
  {| running := running s; round := round s; scores := scores s;
     final_registered := final_registered s; final_answers := final_answers s;
     answered_users := answered_users s; daily_doubles := daily_doubles s;
     daily_double_used := daily_double_used s; buzzed_in := buzzed_in s;
     buzzed_in_time := buzzed_in_time s; current_question := current_question s;
     current_chooser := current_chooser s; categories := categories s;
     board := board s; buzzed := buzzed s; buzz_open := v |}.

(** The game with its [state] replaced; the corpora never change. *)
Definition with_state (g : JeopardyGame) (s : GameState) : JeopardyGame :=
  {| state := s; questions := questions g; all_categories := all_categories g |}.

(** [JeopardyGame.__init__], given the contents of the two JSON files. *)
Definition init_state : GameState :=
  {| running := false; round := 1; scores := [];
     final_registered := []; final_answers := [];
     answered_users := ∅; daily_doubles := ∅; daily_double_used := ∅;
     buzzed_in := None; buzzed_in_time := 0%Q;
     current_question := None; current_chooser := None;
     categories := []; board := []; buzzed := []; buzz_open := false |}.

Definition init_game (qs : list Question) (cats : list string) : JeopardyGame :=
  {| state := init_state; questions := qs; all_categories := cats |}.

(** What a handler does to the outside, in program order: a call of
    [send_message], or the start of the daemon thread that runs
    [buzz_timeout] for a posted question. *)
Inductive effect :=
  | send_message (text : string) (bubble_id : bubble)
  | start_buzz_timeout (question_obj : Question).

Global Instance result_ret : MRet result := λ A a, Ok a.
Global Instance result_fmap : FMap result := λ A B f m,
  match m with
  | Ok a => Ok (f a)
  | Raise e => Raise e
  end.
Global Instance result_bind : MBind result := λ A B f m,
  match m with
  | Ok a => f a
  | Raise e => Raise e
  end.

(** [d[k] += n]: [KeyError] for an absent key. *)
Definition dict_iadd (d : dict Z) (k : string) (n : Z) : result (dict Z) :=
  match dict_lookup d k with
  | Some v => Ok (dict_set d k (v + n))
  | None => Raise KeyError
  end.

(** [d[k] -= n]. *)
Definition dict_isub (d : dict Z) (k : string) (n : Z) : result (dict Z) :=
  match dict_lookup d k with
  | Some v => Ok (dict_set d k (v - n))
  | None => Raise KeyError
  end.

(** Truth value of [state['buzzed_in']] in a condition: [None] and the
    integer [0] are false. *)
Definition truthy (o : option Z) : bool :=
  match o with
  | None => false
  | Some n => negb (n =? 0)
  end.

(** [random.choice(l)] with the index it draws; an [IndexError] on the
    empty list shows as [None]. *)
Definition random_choice {A} (draw : nat) (l : list A) : option A :=
  l !! (draw mod length l)%nat.

(** ** [JeopardyGame] *)

(** One cell of the rendered board. *)
Definition render_cell (c : Z * bool) : string :=
  " " +:+ (if c.2 then "❌" else "$" +:+ py_str c.1) +:+ " ".

(** [display_board]: every corpus question of a chosen category is a cell,
    crossed out when the question is not on the board. *)
Definition display_board (g : JeopardyGame) : string :=
  let s := state g in
  let board0 : dict (list (Z * bool)) :=
    foldl (λ b cat, dict_set b cat []) [] (categories s) in
  let board1 :=
    foldl (λ b q,
             let cat := category_id q in
             let pts := points q in
             let used := negb (py_in q (board s)) in
             match dict_lookup b cat with
             | Some cells => dict_set b cat (cells ++ [(pts, used)])
             | None => b
             end) board0 (questions g) in
  foldl (λ msg entry,
           foldl (λ m c, m +:+ render_cell c)
                 (msg +:+ nl +:+ entry.1 +:+ ":" +:+ nl)
                 (sorted_by fst entry.2)
           +:+ nl)
        ("Jeopardy Board:" +:+ nl) board1.

(** The outcome of [random.sample] and of the calls of [random.choice]
    made by one [setup_board]: the six categories drawn (distinct
    positions of the category corpus), and the index drawn for each
    category and point value. *)
Record BoardDraw := {
  sample_categories : list string;
  choice_index : string → Z → nat
}.

(** [setup_board]. [random.sample(self.categories, 6)] raises
    [ValueError] on a corpus of fewer than six categories. *)
Definition setup_board (rng : BoardDraw) (g : JeopardyGame)
    : result JeopardyGame :=
  if (length (all_categories g) <? 6)%nat then Raise ValueError
  else
    let chosen_categories := sample_categories rng in
    let selected_of (cat : string) : list Question :=
      let qs := filter (λ q, category_id q = cat) (questions g) in
      let unique_points := sorted_by id (remove_dups (points <$> qs)) in
      omap (λ pts,
              let at_pts := filter (λ q, points q = pts) qs in
              match at_pts with
              | [] => None
              | _ => random_choice (choice_index rng cat pts) at_pts
              end) unique_points in
    Ok (with_state g
          (set_board (foldl (λ b cat, b ++ selected_of cat) [] chosen_categories)
             (set_categories chosen_categories (state g)))).

(** The body of the thread started by [post_question], run when its
    ten-second sleep ends. *)
Definition buzz_timeout (question_obj : Question) (g : JeopardyGame)
    : JeopardyGame * list effect :=
  let s := state g in
  if negb (truthy (buzzed_in s)) && buzz_open s then
    let corrects := py_join ", " (answers question_obj) in
    let s1 := set_buzz_open false s in
    let s2 := if py_in question_obj (board s1)
              then set_board (list_remove question_obj (board s1)) s1
              else s1 in
    let g3 := with_state g (set_current_question None s2) in
    (g3,
     [send_message
        ("⏱ Time's up! No one buzzed in. The correct answer was: " +:+ corrects)
        MAIN_BUBBLE_ID;
      send_message (display_board g3) MAIN_BUBBLE_ID])
  else (g, []).

(** [post_question]. *)
Definition post_question (question_obj : Question) (g : JeopardyGame)
    : JeopardyGame * list effect :=
  let s := set_buzz_open true
             (set_buzzed [] (set_current_question (Some question_obj) (state g))) in
  (with_state g s,
   [send_message
      ("Question for $" +:+ py_str (points question_obj) +:+ " in "
       +:+ category_id question_obj +:+ ":" +:+ nl +:+ question question_obj)
      MAIN_BUBBLE_ID;
    start_buzz_timeout question_obj]).

(** [a > b] and [a < b] on clock readings and random draws. *)
Definition Qgtb (a b : Q) : bool := negb (Qle_bool a b).
Definition Qltb (a b : Q) : bool := negb (Qle_bool b a).

(** ** [JeopardyBot]: the command handlers *)

Section handlers.
Context `{PyText}.

(** [handle_start_jeopardy]. *)
Definition handle_start_jeopardy (rng : BoardDraw) (chat : bubble)
    (g : JeopardyGame) : result (JeopardyGame * list effect) :=
  if negb (running (state g)) then
    let s := state g in
    let s1 :=
      {| running := true; round := 1; scores := [];
         final_registered := []; final_answers := [];
         answered_users := ∅; daily_doubles := ∅;
         daily_double_used := daily_double_used s;
         buzzed_in := None; buzzed_in_time := 0%Q;
         current_question := None; current_chooser := None;
         categories := categories s; board := board s;
         buzzed := buzzed s; buzz_open := buzz_open s |} in
    g2 ← setup_board rng (with_state g s1);
    Ok (g2,
        [send_message
           "🎉 Jeopardy has started! Use !choose [Amount] [Category] to begin!"
           MAIN_BUBBLE_ID;
         send_message (display_board g2) MAIN_BUBBLE_ID])
  else Ok (g, [send_message "A game is already running!" chat]).

(** [handle_choose_question]. [rnd] is the value of [random.random()],
    drawn only when a tile is found. *)
Definition handle_choose_question (command command2 : list string)
    (user_id : Z) (chat : bubble) (rnd : Q) (g : JeopardyGame)
    : result (JeopardyGame * list effect) :=
  let s := state g in
  if negb (running s) then
    Ok (g, [send_message "No game is currently running." chat])
  else if (length command <? 3)%nat then
    Ok (g, [send_message "Usage: !choose [Amount] [Category]" chat])
  else
    match command !! 1%nat ≫= py_int with
    | None => Ok (g, [send_message "Invalid point value." chat])
    | Some pts =>
        let category := py_join " " (drop 2 command2) in
        if negb (py_in category (categories s)) then
          Ok (g, [send_message "Invalid category!" chat])
        else
          match List.find (λ q, bool_decide (category_id q = category)
                                && bool_decide (points q = pts)) (board s) with
          | Some q =>
              if Qltb rnd (1 # 10)
                 && negb (bool_decide ((category, pts) ∈ daily_double_used s))
              then
                let s1 := set_daily_double_used
                            ({[ (category, pts) ]} ∪ daily_double_used s) s in
                Ok (with_state g (set_current_question (Some q) s1),
                    [send_message
                       "Daily Double! Use !dailydouble [amount] [answer]"
                       MAIN_BUBBLE_ID])
              else Ok (post_question q g)
          | None =>
              Ok (g, [send_message
                        "Couldn't find a valid question at that amount in that category."
                        chat])
          end
    end.

(** [handle_buzz]. [now] is the value of [time.time()]. *)
Definition handle_buzz (user_id : Z) (chat : bubble) (now : Q)
    (g : JeopardyGame) : result (JeopardyGame * list effect) :=
  let s := state g in
  if bool_decide (buzzed_in s = None) && bool_decide (is_Some (current_question s))
  then
    Ok (with_state g (set_buzzed_in_time now (set_buzzed_in (Some user_id) s)),
        [send_message
           ("<@" +:+ py_str user_id
            +:+ "> has buzzed in! You have 20 seconds to answer with !answer [your answer]")
           MAIN_BUBBLE_ID])
  else
    Ok (g, [send_message
              "Someone has already buzzed in or there's no active question."
              chat]).

(** [handle_answer]. Subscripting [current_question] when it is [None]
    raises [TypeError]. *)
Definition handle_answer (command2 : list string) (user_id : Z)
    (chat : bubble) (now : Q) (g : JeopardyGame)
    : result (JeopardyGame * list effect) :=
  let s := state g in
  if negb (bool_decide (Some user_id = buzzed_in s)) then
    Ok (g, [send_message "You didn't buzz in!" chat])
  else if Qgtb (now - buzzed_in_time s)%Q 20%Q then
    let g1 := with_state g (set_buzzed_in None s) in
    Ok (g1, [send_message "Time's up!" MAIN_BUBBLE_ID;
             send_message (display_board g1) MAIN_BUBBLE_ID])
  else
    let answer_text := py_lower (py_join " " (drop 1 command2)) in
    match current_question s with
    | None => Raise TypeError
    | Some q =>
        let correct_answers := py_lower <$> answers q in
        let uid := py_str user_id in
        let pts := points q in
        let s1 := set_scores (dict_setdefault (scores s) uid 0) s in
        if py_in answer_text correct_answers then
          sc ← dict_iadd (scores s1) uid pts;
          let g2 := with_state g
                      (set_current_question None
                         (set_current_chooser (Some user_id) (set_scores sc s1))) in
          Ok (g2,
              [send_message
                 ("Correct! <@" +:+ py_str user_id +:+ "> gains "
                  +:+ py_str pts +:+ " points.") MAIN_BUBBLE_ID;
               send_message (display_board g2) MAIN_BUBBLE_ID])
        else
          sc ← dict_isub (scores s1) uid pts;
          let g2 := with_state g (set_buzzed_in None (set_scores sc s1)) in
          Ok (g2,
              [send_message
                 ("Incorrect! <@" +:+ py_str user_id +:+ "> loses "
                  +:+ py_str pts +:+ " points.") MAIN_BUBBLE_ID;
               send_message (display_board g2) MAIN_BUBBLE_ID])
    end.

(** The wager of [handle_daily_double] after
    [max(1, min(wager, max(score, 1000 if round == 1 else 2000)))]. *)
Definition clamp_wager (wager score round : Z) : Z :=
  1 `max` (wager `min` (score `max` (if bool_decide (round = 1) then 1000 else 2000))).

(** [handle_daily_double]. The wager is read from [parts[0]]. *)
Definition handle_daily_double (parts : list string) (user_id : Z)
    (chat : bubble) (g : JeopardyGame) : result (JeopardyGame * list effect) :=
  let s := state g in
  match current_question s with
  | None =>
      Ok (g, [send_message "There's no active daily double right now." chat])
  | Some q =>
      if (length parts <? 2)%nat then
        Ok (g, [send_message "Usage: !dailydouble [amount] [answer]" chat])
      else
        match parts !! 0%nat ≫= py_int with
        | None => Ok (g, [send_message "Invalid wager." chat])
        | Some wager0 =>
            let uid := py_str user_id in
            let score := dict_get (scores s) uid 0 in
            let wager := clamp_wager wager0 score (round s) in
            let answer_text := py_lower (py_join " " (drop 1 parts)) in
            let correct_answers := py_lower <$> answers q in
            let s1 := set_scores (dict_setdefault (scores s) uid 0) s in
            if py_in answer_text correct_answers then
              sc ← dict_iadd (scores s1) uid wager;
              let g2 := with_state g (set_current_question None (set_scores sc s1)) in
              Ok (g2,
                  [send_message
                     ("Correct! <@" +:+ py_str user_id +:+ "> gains "
                      +:+ py_str wager +:+ " points.") MAIN_BUBBLE_ID;
                   send_message (display_board g2) MAIN_BUBBLE_ID])
            else
              sc ← dict_isub (scores s1) uid wager;
              let g2 := with_state g (set_current_question None (set_scores sc s1)) in
              Ok (g2,
                  [send_message
                     ("Incorrect! <@" +:+ py_str user_id +:+ "> loses "
                      +:+ py_str wager +:+ " points.") MAIN_BUBBLE_ID;
                   send_message (display_board g2) MAIN_BUBBLE_ID])
        end
  end.

(** [sorted(scores.items(), key=lambda x: x[1], reverse=True)]. *)
Definition ranking (d : dict Z) : list (string * Z) := sorted_by_reverse snd d.

(** [handle_score]. *)
Definition handle_score (g : JeopardyGame) : result (JeopardyGame * list effect) :=
  let lines := (λ e : string * Z, "<@" +:+ e.1 +:+ ">: " +:+ py_str e.2)
                 <$> ranking (scores (state g)) in
  Ok (g, [send_message ("🏆 Current Scores:" +:+ nl +:+ py_join nl lines)
            MAIN_BUBBLE_ID]).

(** [handle_register]. *)
Definition handle_register (user_id : Z) (chat : bubble) (g : JeopardyGame)
    : result (JeopardyGame * list effect) :=
  let s := state g in
  let uid := py_str user_id in
  let score := dict_get (scores s) uid 0 in
  if score <? 1 then
    Ok (g, [send_message "You need at least $1 to register for Final Jeopardy." chat])
  else if negb (py_in uid (final_registered s)) then
    Ok (with_state g (set_final_registered (final_registered s ++ [uid]) s),
        [send_message
           ("You've registered for Final Jeopardy! Your current score is $"
            +:+ py_str score +:+ ".") chat])
  else Ok (g, [send_message "You're already registered!" chat]).

(** One turn of the loop of [start_final_jeopardy] that settles the
    wagers: [inbox] is what [get_last_message] returns for a private
    channel, [acc] the scores and the effects so far. The private channel
    of a registered [uid] is [DM uid]: a registered [uid] is the [str] of
    an integer user id, so [int(uid)] succeeds. *)
Definition settle_final_reply (final_q : Question) (inbox : bubble → string)
    (acc : dict Z * list effect) (uid : string)
    : result (dict Z * list effect) :=
  let '(sc, out) := acc in
  let msg := inbox (DM uid) in
  if negb (py_startswith msg "!finaljeopardy") then Ok acc
  else
    let parts := py_split msg in
    if (length parts <? 3)%nat then Ok acc
    else
      match parts !! 1%nat ≫= py_int with
      | None => Ok acc
      | Some wager0 =>
          if wager0 <=? 0 then Ok acc
          else
            let answer_text := py_lower (py_join " " (drop 2 parts)) in
            let correct_answers := py_lower <$> answers final_q in
            let user_score := dict_get sc uid 0 in
            let wager := if wager0 >? user_score then user_score else wager0 in
            if py_in answer_text correct_answers then
              sc' ← dict_iadd sc uid wager;
              Ok (sc', (out ++ [send_message
                                 (uid +:+ " got it RIGHT and gained $"
                                  +:+ py_str wager +:+ "!") MAIN_BUBBLE_ID]))
            else
              sc' ← dict_isub sc uid wager;
              Ok (sc', (out ++ [send_message
                                 (uid +:+ " got it WRONG and lost $"
                                  +:+ py_str wager +:+ ".") MAIN_BUBBLE_ID]))
      end.

Fixpoint settle_final_replies (final_q : Question) (inbox : bubble → string)
    (acc : dict Z * list effect) (uids : list string)
    : result (dict Z * list effect) :=
  match uids with
  | [] => Ok acc
  | uid :: uids' =>
      acc' ← settle_final_reply final_q inbox acc uid;
      settle_final_replies final_q inbox acc' uids'
  end.

(** The text of the final leaderboard. *)
Definition leaderboard_text (ranked : list (string * Z)) : string :=
  foldl (λ text e, text +:+ e.1 +:+ ": $" +:+ py_str e.2 +:+ nl)
        ("🏁 Final Scores:" +:+ nl) ranked.

(** [start_final_jeopardy], with its two sleeps elided: [draw] is the
    index that [random.choice(self.game.questions)] draws and [inbox] the
    last message of each private channel when the answer window closes. *)
Definition start_final_jeopardy (draw : nat) (inbox : bubble → string)
    (g : JeopardyGame) : result (JeopardyGame * list effect) :=
  let s := state g in
  let announce :=
    send_message "Final Jeopardy is starting in 1 minute! Use !register to join."
      MAIN_BUBBLE_ID in
  match final_registered s with
  | [] =>
      Ok (g, [announce;
              send_message "No one registered for Final Jeopardy!" MAIN_BUBBLE_ID])
  | _ =>
      match random_choice draw (questions g) with
      | None => Raise IndexError
      | Some final_q =>
          let s1 := set_current_question (Some final_q) s in
          let asks :=
            (λ uid,
               send_message
                 ("Final Jeopardy Question:" +:+ nl +:+ question final_q
                  +:+ nl +:+ nl +:+ "Wager and answer using:" +:+ nl
                  +:+ "!finaljeopardy [amount] [your answer]") (DM uid))
              <$> final_registered s1 in
          '(sc, out) ← settle_final_replies final_q inbox
                         (scores s1, announce :: asks) (final_registered s1);
          let s2 := set_scores sc s1 in
          Ok (with_state g (set_running false s2),
              (out ++ [send_message (leaderboard_text (ranking (scores s2)))
                         MAIN_BUBBLE_ID]))
      end
  end.

(** What a dispatched handler may read from outside: the clock, a
    random number, the draws of a new board. *)
Record Ambient := {
  clock : Q;
  random_number : Q;
  board_draw : BoardDraw
}.

(** [msg[1:]]. *)
Definition drop_first (s : string) : string :=
  match s with
  | EmptyString => EmptyString
  | String _ s' => s'
  end.

(** [check_for_commands]. The private channel of the sender stands for
    [get_dm_or_create(user_id)['bubble']['id']]. *)
Definition check_for_commands (msg_text_tall : string) (user_id : Z)
    (env : Ambient) (g : JeopardyGame) : result (JeopardyGame * list effect) :=
  let chat := DM (py_str user_id) in
  let msg_text := py_lower msg_text_tall in
  let command := py_split (drop_first msg_text) in
  let command2 := py_split (drop_first msg_text_tall) in
  if py_startswith msg_text "!startjeopardy" then
    handle_start_jeopardy (board_draw env) chat g
  else if py_startswith msg_text "!choose" then
    handle_choose_question command command2 user_id chat (random_number env) g
  else if py_startswith msg_text "!buzz" then
    handle_buzz user_id chat (clock env) g
  else if py_startswith msg_text "!answer" then
    handle_answer command2 user_id chat (clock env) g
  else if py_startswith msg_text "!dailydouble" then
    handle_daily_double command2 user_id chat g
  else if py_startswith msg_text "!score" then
    handle_score g
  else if py_startswith msg_text "!register" then
    handle_register user_id chat g
  else Ok (g, []).

End handlers.

(** ** The bot at work

    The bot processes one command at a time; the threads started by
    [post_question] wake up between commands. [sleeping] lists the
    questions whose thread has not run yet, [outbox] everything sent. *)
Record World := {
  game : JeopardyGame;
  sleeping : list Question;
  outbox : list effect
}.

Inductive event :=
  | startjeopardy (rng : BoardDraw) (chat : bubble)
  | choose (command command2 : list string) (user_id : Z) (chat : bubble) (rnd : Q)
  | buzz (user_id : Z) (chat : bubble) (now : Q)
  | answer (command2 : list string) (user_id : Z) (chat : bubble) (now : Q)
  | dailydouble (parts : list string) (user_id : Z) (chat : bubble)
  | score
  | register (user_id : Z) (chat : bubble)
  | final_jeopardy (draw : nat) (inbox : bubble → string)
  | timeout_fires (question_obj : Question).

(** The threads a list of effects starts. *)
Definition started (out : list effect) : list Question :=
  omap (λ e, match e with
             | start_buzz_timeout q => Some q
             | send_message _ _ => None
             end) out.

Definition absorb (w : World) (r : JeopardyGame * list effect) : World :=
  {| game := r.1;
     sleeping := (sleeping w ++ started r.2);
     outbox := (outbox w ++ r.2) |}.

(** One event. A thread that is not sleeping cannot wake up: the event
    changes nothing then. *)
Definition step `{PyText} (e : event) (w : World) : result World :=
  let g := game w in
  match e with
  | startjeopardy rng chat => absorb w <$> handle_start_jeopardy rng chat g
  | choose command command2 user_id chat rnd =>
      absorb w <$> handle_choose_question command command2 user_id chat rnd g
  | buzz user_id chat now => absorb w <$> handle_buzz user_id chat now g
  | answer command2 user_id chat now =>
      absorb w <$> handle_answer command2 user_id chat now g
  | dailydouble parts user_id chat =>
      absorb w <$> handle_daily_double parts user_id chat g
  | score => absorb w <$> handle_score g
  | register user_id chat => absorb w <$> handle_register user_id chat g
  | final_jeopardy draw inbox => absorb w <$> start_final_jeopardy draw inbox g
  | timeout_fires q =>
      if py_in q (sleeping w) then
        let r := buzz_timeout q g in
        Ok {| game := r.1;
              sleeping := list_remove q (sleeping w);
              outbox := (outbox w ++ r.2) |}
      else Ok w
  end.

Fixpoint run `{PyText} (es : list event) (w : World) : result World :=
  match es with
  | [] => Ok w
  | e :: es' => w' ← step e w; run es' w'
  end.

(** The bot as [JeopardyBot.__init__] leaves it. *)
Definition boot (qs : list Question) (cats : list string) : World :=
  {| game := init_game qs cats; sleeping := []; outbox := [] |}.

(** ** An implementation of [PyText] for ASCII text

    Used to run the handlers on concrete commands. *)
Definition ascii_lower_char (c : ascii) : ascii :=
  let n := nat_of_ascii c in
  if (65 <=? n)%nat && (n <=? 90)%nat then ascii_of_nat (n + 32) else c.

Fixpoint ascii_lower (s : string) : string :=
  match s with
  | EmptyString => EmptyString
  | String c s' => String (ascii_lower_char c) (ascii_lower s')
  end.

Definition ascii_is_space (c : ascii) : bool :=
  let n := nat_of_ascii c in
  ((9 <=? n)%nat && (n <=? 13)%nat) || ((28 <=? n)%nat && (n <=? 32)%nat).

(** [cur] is the word being read. *)
Fixpoint ascii_split_go (cur : string) (s : string) : list string :=
  match s with
  | EmptyString => if decide (cur = "") then [] else [cur]
  | String c s' =>
      if ascii_is_space c then
        if decide (cur = "") then ascii_split_go "" s'
        else cur :: ascii_split_go "" s'
      else ascii_split_go (cur +:+ String c EmptyString) s'
  end.

Definition ascii_split (s : string) : list string := ascii_split_go "" s.

Definition ascii_digit (c : ascii) : option Z :=
  let n := nat_of_ascii c in
  if (48 <=? n)%nat && (n <=? 57)%nat then Some (Z.of_nat n - 48) else None.

Fixpoint ascii_digits (acc : Z) (s : string) : option Z :=
  match s with
  | EmptyString => Some acc
  | String c s' => d ← ascii_digit c; ascii_digits (10 * acc + d) s'
  end.

(** An optional sign and one or more decimal digits. *)
Definition ascii_int (s : string) : option Z :=
  match s with
  | EmptyString => None
  | String c s' =>
      if decide (c = "-"%char) then
        if decide (s' = "") then None else Z.opp <$> ascii_digits 0 s'
      else if decide (c = "+"%char) then
        if decide (s' = "") then None else ascii_digits 0 s'
      else ascii_digits 0 s
  end.

Definition ascii_text : PyText :=
  {| py_lower := ascii_lower; py_split := ascii_split; py_int := ascii_int |}.

(** ** A small game, for the runs below *)
Module Demo.

Definition mars : Question :=
  {| category_id := "Science"; points := 200;
     question := "Which planet is called the Red Planet?";
     answers := ["Mars"] |}.

Definition gold : Question :=
  {| category_id := "Science"; points := 400;
     question := "Which metal has the chemical symbol Au?";
     answers := ["Gold"] |}.

Definition rome : Question :=
  {| category_id := "History"; points := 200;
     question := "Which city was ruled by Julius Caesar?";
     answers := ["Rome"; "Roma"] |}.

Definition corpus : list Question := [mars; gold; rome].

Definition corpus_categories : list string :=
  ["Science"; "History"; "Sports"; "Music"; "Movies"; "Food"].

(** A draw that keeps the corpus order and takes the first candidate. *)
Definition rng : BoardDraw :=
  {| sample_categories := corpus_categories; choice_index := λ _ _, 0%nat |}.

(** User 7 and user 8, and their private channels. *)
Definition ann : Z := 7.
Definition bob : Z := 8.
Definition chat (user_id : Z) : bubble := DM (py_str user_id).

Definition start : event := startjeopardy rng (chat ann).

(** [!choose 200 Science], with a draw that is not a Daily Double
    ([0.5]) and one that is ([0.05]). *)
Definition choose_mars (rnd : Q) : event :=
  choose ["choose"; "200"; "science"] ["choose"; "200"; "Science"] ann (chat ann) rnd.

Definition no_luck : Q := 1 # 2.
Definition luck : Q := 1 # 20.

(** Ann buzzes at second 100 and answers [!answer mars] at second 105. *)
Definition ann_buzzes : event := buzz ann (chat ann) 100%Q.
Definition ann_answers_mars (now : Q) : event :=
  answer ["answer"; "mars"] ann (chat ann) now.

(** [!choose 400 Science]. *)
Definition choose_gold (rnd : Q) : event :=
  choose ["choose"; "400"; "science"] ["choose"; "400"; "Science"] ann (chat ann) rnd.

(** Nobody has replied to the final question. *)
Definition silent : bubble → string := λ _, "".

(** A whole game: Ann scores the Science $200 tile, registers for Final
    Jeopardy, and Final Jeopardy runs with [mars] drawn as its question
    and no reply from her. *)
Definition whole_game : list event :=
  [start; choose_mars no_luck; ann_buzzes; ann_answers_mars 105%Q;
   register ann (chat ann); final_jeopardy 0 silent].

(** What follows the end of that game: Ann answers late, Bob buzzes,
    answers [!answer mars] and registers. *)
Definition after_the_end : list event :=
  [answer ["answer"; "mars"] ann (chat ann) 400%Q;
   buzz bob (chat bob) 401%Q;
   answer ["answer"; "mars"] bob (chat bob) 402%Q;
   register bob (chat bob)].

(** A game in which the Science $200 tile is a Daily Double that Ann
    answers with a wager of 5, followed by Final Jeopardy. *)
Definition daily_double_game : list event :=
  [start; choose_mars luck; dailydouble ["5"; "mars"] ann (chat ann);
   register ann (chat ann); final_jeopardy 0 silent].

(** Ann wagers more than she holds on the final question. *)
Definition ann_replies : bubble → string :=
  λ b, if decide (b = DM "7") then "!finaljeopardy 500 mars" else "".

(** A run of the bot from its start, on ASCII text. *)
Definition play (es : list event) : result World :=
  @run ascii_text es (boot corpus corpus_categories).

(** The last thing a finished run sent or started. *)
Definition last_effect (es : list event) : option effect :=
  match play es with
  | Ok w => last (outbox w)
  | Raise _ => None
  end.

(** The game of a finished run; the empty game if the run raised. *)
Definition game_after (es : list event) : JeopardyGame :=
  match play es with
  | Ok w => game w
  | Raise _ => init_game [] []
  end.

End Demo.

(** ** Vocabulary of the properties *)

(** The orders of a list sorted by [key]. *)
Definition ascending {A} (key : A → Z) (x y : A) : Prop := key x ≤ key y.
Definition descending {A} (key : A → Z) (x y : A) : Prop := key y ≤ key x.

(** The notices of [handle_buzz]. *)
Definition buzz_notice (u : Z) : effect :=
  send_message
    ("<@" +:+ py_str u
     +:+ "> has buzzed in! You have 20 seconds to answer with !answer [your answer]")
    MAIN_BUBBLE_ID.

Definition buzz_refusal (chat : bubble) : effect :=
  send_message "Someone has already buzzed in or there's no active question." chat.

(** The cap of a wager: [1000 if round == 1 else 2000]. *)
Definition round_cap (round : Z) : Z :=
  if bool_decide (round = 1) then 1000 else 2000.

(** The three states of the question sub-machine. *)
Definition no_active_question (s : GameState) : Prop :=
  current_question s = None.

Definition buzz_window_open (s : GameState) : Prop :=
  is_Some (current_question s) ∧ buzz_open s = true ∧ buzzed_in s = None.

Definition locked (s : GameState) : Prop :=
  is_Some (current_question s) ∧ is_Some (buzzed_in s) ∧ buzz_open s = false.

Definition exactly_one_substate (s : GameState) : Prop :=
  (no_active_question s ∧ ¬ buzz_window_open s ∧ ¬ locked s)
  ∨ (¬ no_active_question s ∧ buzz_window_open s ∧ ¬ locked s)
  ∨ (¬ no_active_question s ∧ ¬ buzz_window_open s ∧ locked s).

Definition at_most_one_substate (s : GameState) : Prop :=
  ¬ (no_active_question s ∧ buzz_window_open s)
  ∧ ¬ (no_active_question s ∧ locked s)
  ∧ ¬ (buzz_window_open s ∧ locked s).

Definition some_substate (s : GameState) : Prop :=
  no_active_question s ∨ buzz_window_open s ∨ locked s.

(** Nobody is registered twice for Final Jeopardy, and every registered
    user has an entry in [scores]. *)
Definition registered_ok (s : GameState) : Prop :=
  NoDup (final_registered s)
  ∧ ∀ uid, uid ∈ final_registered s → is_Some (dict_lookup (scores s) uid).

(** A step of a handler that leaves the registrations alone and loses
    no entry of [scores]. *)
Definition grows (g g' : JeopardyGame) : Prop :=
  questions g' = questions g
  ∧ all_categories g' = all_categories g
  ∧ final_registered (state g') = final_registered (state g)
  ∧ ∀ k, is_Some (dict_lookup (scores (state g)) k) →
         is_Some (dict_lookup (scores (state g')) k).

Section vocabulary.
Context `{PyText}.

(** The text of the answer is right for the question. *)
Definition is_correct (text : list string) (q : Question) : Prop :=
  py_lower (py_join " " text) ∈ py_lower <$> answers q.

Global Instance is_correct_dec text q : Decision (is_correct text q).
Proof. unfold is_correct. apply _. Defined.

(** A private reply that [start_final_jeopardy] accepts as a wager of
    [w0]: the command word, at least three words, a positive integer as
    second word. *)
Definition well_formed_reply (msg : string) (w0 : Z) : Prop :=
  py_startswith msg "!finaljeopardy" = true
  ∧ (3 ≤ length (py_split msg))%nat
  ∧ py_split msg !! 1%nat ≫= py_int = Some w0
  ∧ 0 < w0.

(** The wager of a reply, if it is well formed. *)
Definition reply_wager (msg : string) : option Z :=
  if py_startswith msg "!finaljeopardy" then
    if (3 <=? length (py_split msg))%nat then
      w0 ← py_split msg !! 1%nat ≫= py_int;
      if 0 <? w0 then Some w0 else None
    else None
  else None.

(** The score that a well-formed reply with wager [w0] leaves to a user
    who held [old]. *)
Definition settled_score (final_q : Question) (msg : string) (w0 old : Z) : Z :=
  let wager := if decide (old < w0) then old else w0 in
  if decide (is_correct (drop 2 (py_split msg)) final_q)
  then old + wager else old - wager.

(** The score after the reply [msg], whatever it is. *)
Definition score_after_reply (final_q : Question) (msg : string) (old : Z) : Z :=
  match reply_wager msg with
  | Some w0 => settled_score final_q msg w0 old
  | None => old
  end.

End vocabulary.

(** ** Vocabulary of the further properties *)

(** The coordinate of a tile. *)
Definition coordinate (q : Question) : string * Z := (category_id q, points q).

(** The point values that [setup_board] finds for a category:
    [sorted(set(int(q['points']) for q in questions))]. *)
Definition point_values (qs : list Question) (cat : string) : list Z :=
  sorted_by id (remove_dups (points <$> filter (λ q, category_id q = cat) qs)).

(** The tiles that [setup_board] selects for a category. *)
Definition tiles_of (rng : BoardDraw) (qs : list Question) (cat : string)
    : list Question :=
  let in_cat := filter (λ q, category_id q = cat) qs in
  omap (λ pts,
          let at_pts := filter (λ q, points q = pts) in_cat in
          match at_pts with
          | [] => None
          | _ => random_choice (choice_index rng cat pts) at_pts
          end) (point_values qs cat).



(** The tiles of the board come from the corpus and from the chosen
    categories, and the round is the first. *)
Definition layout_ok (g : JeopardyGame) : Prop :=
  round (state g) = 1
  ∧ ∀ q, q ∈ board (state g) →
         q ∈ questions g ∧ category_id q ∈ categories (state g).

(** ** [ProntoClient.get_dm_or_create]

    [created] is what [createDM] returns if it is called. The result is
    the DM of the user, the rows of [stored_dms] afterwards, and whether
    [createDM] was called. *)
Definition get_dm_or_create {D} (created : D) (user_id : Z)
    (stored_dms : list (Z * D)) : D * list (Z * D) * bool :=
  let matches := filter (λ row, row.1 = user_id) stored_dms in
  match matches with
  | [] => (created, stored_dms ++ [(user_id, created)], true)
  | row :: _ => (row.2, stored_dms, false)
  end.

(** What no handler but [handle_start_jeopardy] and [buzz_timeout]
    changes: the corpus, the round, the categories and the board; and
    [daily_double_used] never loses a pair. *)
Definition same_layout (g g' : JeopardyGame) : Prop :=
  questions g' = questions g
  ∧ round (state g') = round (state g)
  ∧ categories (state g') = categories (state g)
  ∧ board (state g') = board (state g)
  ∧ daily_double_used (state g) ⊆ daily_double_used (state g').

(** ** More of the small game *)
Module Replay.

(** The bot after a finished run; the bot with no corpus if the run
    raised. *)
Definition world_after (es : list event) : World :=
  match Demo.play es with
  | Ok w => w
  | Raise _ => boot [] []
  end.

(** The world after one more event. *)
Definition and_then (e : event) (w : World) : World :=
  match @step ascii_text e w with
  | Ok w' => w'
  | Raise _ => boot [] []
  end.

End Replay.

(** ** The number game of the poll bot ([src/poll.py])

    [NumberGameManager]. A method returns the manager after the call and
    the pair it returns to its caller. [drawn] is the value of
    [random.randint(1, max_num)], which lies between its two bounds. *)
Module NumberGame.

Record NumberGameManager := {
  game_active : bool;
  correct_number : Z;
  max_number : Z
}.

(** [NumberGameManager.__init__]. *)
Definition init : NumberGameManager :=
  {| game_active := false; correct_number := 0; max_number := 0 |}.

Section methods.
Context `{PyText}.

(** [start_game]. *)
Definition start_game (drawn : Z) (max_num : string) (m : NumberGameManager)
    : NumberGameManager * (bool * string) :=
  if game_active m then (m, (false, "A game is already in progress"))
  else
    match py_int max_num with
    | None => (m, (false, "Invalid maximum number"))
    | Some max_num =>
        if (max_num <? 1) || (max_num >? 10000) then
          (m, (false, "Maximum number must be between 1 and 10000"))
        else
          ({| game_active := true; correct_number := drawn;
              max_number := max_num |},
           (true,
            "I've chosen a number between 1 and " +:+ py_str max_num
            +:+ ". Use !guess to make your guess!"))
    end.

(** [make_guess]. *)
Definition make_guess (guess : string) (m : NumberGameManager)
    : NumberGameManager * (bool * string) :=
  if negb (game_active m) then
    (m, (false, "No number game is currently active"))
  else
    match py_int guess with
    | None => (m, (false, "Invalid guess. Please enter a number"))
    | Some guess_num =>
        if (guess_num <? 1) || (guess_num >? max_number m) then
          (m, (false,
               "Your guess must be between 1 and " +:+ py_str (max_number m)))
        else if guess_num =? correct_number m then
          ({| game_active := false; correct_number := correct_number m;
              max_number := max_number m |},
           (true, "Correct! The answer was " +:+ py_str guess_num +:+ "!"))
        else if guess_num >? correct_number m then
          (m, (false, py_str guess_num +:+ " is too high!"))
        else (m, (false, py_str guess_num +:+ " is too low!"))
    end.

(** A call of one of the two methods. *)
Inductive call :=
  | start (drawn : Z) (max_num : string)
  | guess (text : string).

Definition perform (c : call) (m : NumberGameManager) : NumberGameManager :=
  match c with
  | start drawn max_num => (start_game drawn max_num m).1
  | guess text => (make_guess text m).1
  end.

(** The manager after a sequence of calls. *)
Definition after (calls : list call) : NumberGameManager :=
  foldl (λ m c, perform c m) init calls.

(** [random.randint(1, max_num)] returns a number between 1 and
    [max_num]. *)
Definition fair (c : call) : Prop :=
  match c with
  | start drawn max_num =>
      ∀ n, py_int max_num = Some n → 1 ≤ n → 1 ≤ drawn ≤ n
  | guess _ => True
  end.

End methods.

(** While a game is active the number to guess lies between 1 and the
    maximum, and the maximum is at most 10000. *)
Definition in_range (m : NumberGameManager) : Prop :=
  game_active m = true →
  1 ≤ correct_number m ≤ max_number m ∧ max_number m ≤ 10000.

End NumberGame.

(** * Properties *)

(** ** Dictionaries *)

Section dict_facts.
Context {V : Type}.
Implicit Types (d : dict V) (k : string) (v : V).

Lemma dict_lookup_set_eq d k v : dict_lookup (dict_set d k v) k = Some v.
Proof.
  induction d as [|[k' v'] d IH]; simpl.
  - by rewrite decide_True.
  - destruct (decide (k = k')) as [->|Hne]; simpl.
    + by rewrite decide_True.
    + by rewrite decide_False.
Qed.

Lemma dict_lookup_set_ne d k k' v :
  k ≠ k' → dict_lookup (dict_set d k v) k' = dict_lookup d k'.
Proof.
  intros Hne. induction d as [|[k0 v0] d IH]; simpl.
  - by rewrite decide_False.
  - destruct (decide (k = k0)) as [->|Hk]; simpl.
    + by rewrite !decide_False.
    + by rewrite IH.
Qed.

Lemma dict_lookup_setdefault d k v :
  dict_lookup (dict_setdefault d k v) k = Some (dict_get d k v).
Proof.
  unfold dict_setdefault, dict_get.
  destruct (dict_lookup d k) eqn:E; simpl; [done|apply dict_lookup_set_eq].
Qed.

Lemma dict_lookup_setdefault_ne d k k' v :
  k ≠ k' → dict_lookup (dict_setdefault d k v) k' = dict_lookup d k'.
Proof.
  intros Hne. unfold dict_setdefault.
  destruct (dict_lookup d k); [done|by apply dict_lookup_set_ne].
Qed.

Lemma dict_get_set_eq d k v dflt : dict_get (dict_set d k v) k dflt = v.
Proof. unfold dict_get. by rewrite dict_lookup_set_eq. Qed.

Lemma dict_get_set_ne d k k' v dflt :
  k ≠ k' → dict_get (dict_set d k v) k' dflt = dict_get d k' dflt.
Proof. intros. unfold dict_get. by rewrite dict_lookup_set_ne. Qed.

(** Assigning to a key that is present keeps the order of the keys. *)
Lemma dict_set_keys d k v :
  is_Some (dict_lookup d k) → (dict_set d k v).*1 = d.*1.
Proof.
  induction d as [|[k' v'] d IH]; simpl; intros Hk.
  - by destruct Hk.
  - destruct (decide (k = k')) as [->|Hne]; simpl; [done|].
    f_equal. by apply IH.
Qed.

End dict_facts.

Lemma dict_iadd_setdefault (d : dict Z) k n :
  dict_iadd (dict_setdefault d k 0) k n
  = Ok (dict_set (dict_setdefault d k 0) k (dict_get d k 0 + n)).
Proof. unfold dict_iadd. by rewrite dict_lookup_setdefault. Qed.

Lemma dict_isub_setdefault (d : dict Z) k n :
  dict_isub (dict_setdefault d k 0) k n
  = Ok (dict_set (dict_setdefault d k 0) k (dict_get d k 0 - n)).
Proof. unfold dict_isub. by rewrite dict_lookup_setdefault. Qed.

(** ** Sorting *)

Section sorting_facts.
Context {A : Type} (key : A → Z).

Lemma insert_by_Permutation x l : insert_by key x l ≡ₚ x :: l.
Proof.
  induction l as [|y l IH]; simpl; [done|].
  destruct (key x <? key y); [done|].
  rewrite IH. apply Permutation_swap.
Qed.

Lemma insert_by_sorted x l :
  StronglySorted (ascending key) l → StronglySorted (ascending key) (insert_by key x l).
Proof.
  induction 1 as [|y l Hl IH Hy]; simpl.
  - repeat constructor.
  - destruct (key x <? key y) eqn:E.
    + apply Z.ltb_lt in E. constructor; [by constructor|].
      constructor; [unfold ascending; lia|].
      eapply Forall_impl; [exact Hy|]. unfold ascending. intros; lia.
    + apply Z.ltb_ge in E. constructor; [done|].
      rewrite insert_by_Permutation. by constructor.
Qed.

Lemma foldl_insert_by_Permutation acc l :
  foldl (λ acc x, insert_by key x acc) acc l ≡ₚ acc ++ l.
Proof.
  revert acc. induction l as [|x l IH]; intros acc; simpl.
  - by rewrite app_nil_r.
  - rewrite IH, insert_by_Permutation. simpl. apply Permutation_middle.
Qed.

Lemma foldl_insert_by_sorted acc l :
  StronglySorted (ascending key) acc →
  StronglySorted (ascending key) (foldl (λ acc x, insert_by key x acc) acc l).
Proof.
  revert acc. induction l as [|x l IH]; intros acc Hacc; simpl; [done|].
  apply IH. by apply insert_by_sorted.
Qed.

Lemma sorted_by_Permutation l : sorted_by key l ≡ₚ l.
Proof. unfold sorted_by. by rewrite foldl_insert_by_Permutation. Qed.

Lemma sorted_by_sorted l : StronglySorted (ascending key) (sorted_by key l).
Proof. apply foldl_insert_by_sorted. constructor. Qed.

Lemma StronglySorted_reverse_flip (R : relation A) l :
  StronglySorted R l → StronglySorted (flip R) (reverse l).
Proof.
  induction 1 as [|x l Hl IH Hx]; [constructor|].
  rewrite reverse_cons. apply StronglySorted_app; split_and!.
  - intros a b Ha Hb. apply list_elem_of_singleton in Hb as ->.
    rewrite Forall_forall in Hx. apply Hx. by apply elem_of_reverse.
  - done.
  - repeat constructor.
Qed.

Lemma sorted_by_reverse_Permutation l : sorted_by_reverse key l ≡ₚ l.
Proof.
  unfold sorted_by_reverse.
  by rewrite reverse_Permutation, sorted_by_Permutation, reverse_Permutation.
Qed.

Lemma sorted_by_reverse_sorted l :
  StronglySorted (descending key) (sorted_by_reverse key l).
Proof.
  unfold sorted_by_reverse.
  apply (StronglySorted_reverse_flip (ascending key)), sorted_by_sorted.
Qed.

End sorting_facts.

(** ** Clock comparisons *)

Lemma Qgtb_true a b : Qgtb a b = true ↔ (b < a)%Q.
Proof.
  unfold Qgtb. rewrite negb_true_iff, <- not_true_iff_false, Qle_bool_iff.
  split; [apply Qnot_le_lt|apply Qlt_not_le].
Qed.

Lemma Qgtb_false a b : Qgtb a b = false ↔ (a <= b)%Q.
Proof. unfold Qgtb. by rewrite negb_false_iff, Qle_bool_iff. Qed.

(** ** [handle_answer], branch by branch *)

Section answer_facts.
Context `{PyText}.
Implicit Types (g : JeopardyGame) (u : Z) (now : Q).

Lemma handle_answer_not_holder command2 u chat now g :
  buzzed_in (state g) ≠ Some u →
  handle_answer command2 u chat now g
  = Ok (g, [send_message "You didn't buzz in!" chat]).
Proof.
  intros Hne. unfold handle_answer.
  by rewrite bool_decide_eq_false_2.
Qed.

Lemma handle_answer_timed_out command2 u chat now g :
  buzzed_in (state g) = Some u →
  (20 < now - buzzed_in_time (state g))%Q →
  handle_answer command2 u chat now g
  = let g1 := with_state g (set_buzzed_in None (state g)) in
    Ok (g1, [send_message "Time's up!" MAIN_BUBBLE_ID;
             send_message (display_board g1) MAIN_BUBBLE_ID]).
Proof.
  intros Hu Hlate. unfold handle_answer.
  rewrite bool_decide_eq_true_2 by done. simpl.
  apply Qgtb_true in Hlate. by rewrite Hlate.
Qed.

Lemma handle_answer_correct command2 u chat now g q :
  buzzed_in (state g) = Some u →
  (now - buzzed_in_time (state g) <= 20)%Q →
  current_question (state g) = Some q →
  is_correct (drop 1 command2) q →
  handle_answer command2 u chat now g
  = let s := state g in
    let uid := py_str u in
    let sc := dict_set (dict_setdefault (scores s) uid 0) uid
                (dict_get (scores s) uid 0 + points q) in
    let g2 := with_state g
                (set_current_question None
                   (set_current_chooser (Some u)
                      (set_scores sc
                         (set_scores (dict_setdefault (scores s) uid 0) s)))) in
    Ok (g2, [send_message
               ("Correct! <@" +:+ py_str u +:+ "> gains "
                +:+ py_str (points q) +:+ " points.") MAIN_BUBBLE_ID;
             send_message (display_board g2) MAIN_BUBBLE_ID]).
Proof.
  intros Hu Htime Hq Hok. unfold handle_answer.
  rewrite bool_decide_eq_true_2 by done. simpl.
  apply Qgtb_false in Htime. rewrite Htime, Hq.
  unfold py_in. rewrite bool_decide_eq_true_2 by exact Hok.
  simpl. by rewrite dict_iadd_setdefault.
Qed.

Lemma handle_answer_incorrect command2 u chat now g q :
  buzzed_in (state g) = Some u →
  (now - buzzed_in_time (state g) <= 20)%Q →
  current_question (state g) = Some q →
  ¬ is_correct (drop 1 command2) q →
  handle_answer command2 u chat now g
  = let s := state g in
    let uid := py_str u in
    let sc := dict_set (dict_setdefault (scores s) uid 0) uid
                (dict_get (scores s) uid 0 - points q) in
    let g2 := with_state g
                (set_buzzed_in None
                   (set_scores sc
                      (set_scores (dict_setdefault (scores s) uid 0) s))) in
    Ok (g2, [send_message
               ("Incorrect! <@" +:+ py_str u +:+ "> loses "
                +:+ py_str (points q) +:+ " points.") MAIN_BUBBLE_ID;
             send_message (display_board g2) MAIN_BUBBLE_ID]).
Proof.
  intros Hu Htime Hq Hbad. unfold handle_answer.
  rewrite bool_decide_eq_true_2 by done. simpl.
  apply Qgtb_false in Htime. rewrite Htime, Hq.
  unfold py_in. rewrite bool_decide_eq_false_2 by exact Hbad.
  simpl. by rewrite dict_isub_setdefault.
Qed.

(** No branch of [handle_answer] touches the board. *)
Lemma handle_answer_board command2 u chat now g g' out :
  handle_answer command2 u chat now g = Ok (g', out) →
  board (state g') = board (state g).
Proof.
  unfold handle_answer, dict_iadd, dict_isub. intros Hrun.
  repeat case_match; by simplify_eq/=.
Qed.

End answer_facts.

(** ** C1: a correct answer *)

(** C1. A game in which Ann chooses the $200 Science tile, buzzes in and
    answers it correctly five seconds later: her score goes from nothing
    to exactly 200, she becomes the chooser and no question stays active,
    but the tile is still on the board, and [display_board] still offers
    it as [$200], exactly as before the tile was played. Only
    [buzz_timeout] ever removes a tile. *)
Theorem C1_correct_answer_leaves_tile_on_board :
  let before := Demo.game_after [Demo.start] in
  let after := Demo.game_after [Demo.start; Demo.choose_mars Demo.no_luck;
                                Demo.ann_buzzes; Demo.ann_answers_mars 105%Q] in
  dict_lookup (scores (state before)) "7" = None
  ∧ dict_lookup (scores (state after)) "7" = Some 200
  ∧ current_chooser (state after) = Some Demo.ann
  ∧ current_question (state after) = None
  ∧ Demo.mars ∈ board (state after)
  ∧ display_board after = display_board before
  ∧ display_board after =
"Jeopardy Board:

Science:
 $200  $400 

History:
 $200 

Sports:


Music:


Movies:


Food:

".
Proof. vm_compute. split_and!; try reflexivity. apply list_elem_of_here. Qed.

(** ** C7: an answer after the twenty seconds *)

Section C7.
Context `{PyText}.

(** C7, as the code has it. When the user who buzzed in answers more than
    twenty seconds after the buzz, the handler announces "Time's up!" and
    the board on the game channel, clears [buzzed_in] and changes nothing
    else: no score changes, and the active question stays active. *)
Theorem C7_late_answer_clears_only_the_lock command2 u chat now g :
  buzzed_in (state g) = Some u →
  (20 < now - buzzed_in_time (state g))%Q →
  ∃ g',
    handle_answer command2 u chat now g
    = Ok (g', [send_message "Time's up!" MAIN_BUBBLE_ID;
               send_message (display_board g') MAIN_BUBBLE_ID])
    ∧ g' = with_state g (set_buzzed_in None (state g))
    ∧ buzzed_in (state g') = None
    ∧ scores (state g') = scores (state g)
    ∧ current_question (state g') = current_question (state g)
    ∧ board (state g') = board (state g).
Proof.
  intros Hu Hlate. eexists. split; [by apply handle_answer_timed_out|].
  by split_and!.
Qed.

End C7.

(** Ann buzzed at second 100 and answers at second 121. *)
Lemma C7_late_answer_witness :
  let g := Demo.game_after [Demo.start; Demo.choose_mars Demo.no_luck;
                            Demo.ann_buzzes] in
  buzzed_in (state g) = Some Demo.ann
  ∧ (20 < 121 - buzzed_in_time (state g))%Q
  ∧ ∃ g',
      @handle_answer ascii_text ["answer"; "mars"] Demo.ann (Demo.chat Demo.ann) 121%Q g
      = Ok (g', [send_message "Time's up!" MAIN_BUBBLE_ID;
                 send_message (display_board g') MAIN_BUBBLE_ID])
      ∧ g' = with_state g (set_buzzed_in None (state g))
      ∧ buzzed_in (state g') = None
      ∧ scores (state g') = scores (state g)
      ∧ current_question (state g') = current_question (state g)
      ∧ board (state g') = board (state g).
Proof.
  intros g. split_and!; [vm_compute; reflexivity..|].
  apply (@C7_late_answer_clears_only_the_lock ascii_text); vm_compute; reflexivity.
Defined.

(** C7 as claimed fails: after the late answer of the lock holder the
    engine is not idle, the question is still the active one. *)
Lemma C7_counterexample :
  let g := Demo.game_after [Demo.start; Demo.choose_mars Demo.no_luck;
                            Demo.ann_buzzes] in
  buzzed_in (state g) = Some Demo.ann
  ∧ (20 < 121 - buzzed_in_time (state g))%Q
  ∧ ∃ g' out,
      @handle_answer ascii_text ["answer"; "mars"] Demo.ann (Demo.chat Demo.ann) 121%Q g
      = Ok (g', out)
      ∧ current_question (state g') ≠ None.
Proof.
  vm_compute. split_and!; [reflexivity..|].
  do 2 eexists. split; [reflexivity|discriminate].
Qed.

(** ** [handle_buzz] and [handle_choose_question], case by case *)

(** A handler that answers with one notice to the caller and changes
    nothing. *)
Ltac refused_case :=
  do 2 eexists; split; [reflexivity|];
  left; split; [reflexivity|eexists; reflexivity].

Section buzz_facts.
Context `{PyText}.

Lemma handle_buzz_accepted u chat now g :
  buzzed_in (state g) = None →
  is_Some (current_question (state g)) →
  handle_buzz u chat now g
  = Ok (with_state g (set_buzzed_in_time now (set_buzzed_in (Some u) (state g))),
        [buzz_notice u]).
Proof.
  intros Hfree Hq. unfold handle_buzz.
  by rewrite !bool_decide_eq_true_2.
Qed.

Lemma handle_buzz_refused u chat now g :
  is_Some (buzzed_in (state g)) ∨ current_question (state g) = None →
  handle_buzz u chat now g = Ok (g, [buzz_refusal chat]).
Proof.
  intros Hcase. unfold handle_buzz.
  destruct Hcase as [[v Hv]|Hq].
  - rewrite (bool_decide_eq_false_2 (buzzed_in (state g) = None)); [done|].
    by rewrite Hv.
  - rewrite (bool_decide_eq_false_2 (is_Some _)), andb_false_r; [done|].
    rewrite Hq. by intros [? ?].
Qed.

(** What [handle_choose_question] can do: refuse with one notice to the
    caller, offer a Daily Double, or post the question. *)
Lemma handle_choose_question_cases command command2 u chat rnd g :
  ∃ g' out,
    handle_choose_question command command2 u chat rnd g = Ok (g', out)
    ∧ ((g' = g ∧ ∃ text, out = [send_message text chat])
       ∨ (∃ q, q ∈ board (state g)
            ∧ ((category_id q, points q) ∉ daily_double_used (state g))
            ∧ Qltb rnd (1 # 10) = true
            ∧ g' = with_state g
                     (set_current_question (Some q)
                        (set_daily_double_used
                           ({[ (category_id q, points q) ]}
                            ∪ daily_double_used (state g)) (state g)))
            ∧ out = [send_message
                       "Daily Double! Use !dailydouble [amount] [answer]"
                       MAIN_BUBBLE_ID])
       ∨ (∃ q, q ∈ board (state g)
            ∧ running (state g) = true
            ∧ (Qltb rnd (1 # 10) = false
               ∨ (category_id q, points q) ∈ daily_double_used (state g))
            ∧ (g', out) = post_question q g)).
Proof.
  unfold handle_choose_question.
  destruct (running (state g)) eqn:Hrun; simpl; [|refused_case].
  destruct (length command <? 3)%nat; [refused_case|].
  destruct (command !! 1%nat ≫= py_int) as [pts|]; [|refused_case].
  destruct (py_in _ (categories (state g))); simpl; [|refused_case].
  destruct (List.find _ (board (state g))) as [q|] eqn:Hfind; [|refused_case].
  apply find_some in Hfind as [Hin Hq].
  apply andb_prop in Hq as [Hc Hp].
  apply bool_decide_eq_true in Hc, Hp. subst pts.
  apply list_elem_of_In in Hin. rewrite <- Hc.
  destruct (Qltb rnd (1 # 10)) eqn:Hrnd; simpl.
  - destruct (bool_decide _) eqn:Hused; simpl.
    + apply bool_decide_eq_true in Hused.
      do 2 eexists. split; [unfold post_question; reflexivity|].
      right; right. exists q. split_and!; [done..|by right|done].
    + apply bool_decide_eq_false in Hused.
      do 2 eexists. split; [reflexivity|]. right; left. exists q.
      by split_and!.
  - do 2 eexists. split; [unfold post_question; reflexivity|].
    right; right. exists q. split_and!; [done..|by left|done].
Qed.

End buzz_facts.

(** ** C3: buzzing in *)

(** C3, as the code has it. A buzz is accepted exactly when a question is
    active and nobody is buzzed in, whatever the buzz window says: the
    caller becomes [buzzed_in] and the clock reading is recorded, nothing
    else changes, and from then on every buzz is refused with one notice
    to its caller and no change of state, so the lock keeps its holder.
    A buzz while somebody is buzzed in or while no question is active is
    refused in the same way. *)
Theorem C3_buzz_needs_a_question_and_a_free_lock u chat now g :
  (buzzed_in (state g) = None → is_Some (current_question (state g)) →
   ∃ g',
     handle_buzz u chat now g = Ok (g', [buzz_notice u])
     ∧ g' = with_state g (set_buzzed_in_time now (set_buzzed_in (Some u) (state g)))
     ∧ buzzed_in (state g') = Some u
     ∧ buzzed_in_time (state g') = now
     ∧ ∀ v chat' now', handle_buzz v chat' now' g' = Ok (g', [buzz_refusal chat']))
  ∧ (is_Some (buzzed_in (state g)) ∨ current_question (state g) = None →
     handle_buzz u chat now g = Ok (g, [buzz_refusal chat])).
Proof.
  split.
  - intros Hfree Hq. eexists. split; [by apply handle_buzz_accepted|].
    split_and!; [done..|].
    intros v chat' now'. apply handle_buzz_refused. left. by eexists.
  - apply handle_buzz_refused.
Qed.

(** Ann is first to buzz on the posted Science tile; Bob follows. *)
Lemma C3_buzz_witness :
  let g := Demo.game_after [Demo.start; Demo.choose_mars Demo.no_luck] in
  buzzed_in (state g) = None
  ∧ is_Some (current_question (state g))
  ∧ ∃ g',
      handle_buzz Demo.ann (Demo.chat Demo.ann) 100%Q g
      = Ok (g', [buzz_notice Demo.ann])
      ∧ buzzed_in (state g') = Some Demo.ann
      ∧ handle_buzz Demo.bob (Demo.chat Demo.bob) 101%Q g'
        = Ok (g', [buzz_refusal (Demo.chat Demo.bob)]).
Proof.
  intros g.
  assert (Hfree : buzzed_in (state g) = None) by (vm_compute; reflexivity).
  assert (Hq : is_Some (current_question (state g))) by (vm_compute; eauto).
  split_and!; [exact Hfree|exact Hq|].
  destruct (C3_buzz_needs_a_question_and_a_free_lock
              Demo.ann (Demo.chat Demo.ann) 100%Q g) as [Hacc _].
  destruct (Hacc Hfree Hq) as (g' & Hrun & _ & Hlock & _ & Hlater).
  exists g'. split_and!; [exact Hrun|exact Hlock|apply Hlater].
Defined.

(** C3 as claimed fails: while a Daily Double is offered (the buzz window
    was never opened) Bob's buzz is accepted. *)
Lemma C3_counterexample :
  let g := Demo.game_after [Demo.start; Demo.choose_mars Demo.luck] in
  current_question (state g) = Some Demo.mars
  ∧ buzz_open (state g) = false
  ∧ ("Science", 200) ∈ daily_double_used (state g)
  ∧ ∃ g',
      handle_buzz Demo.bob (Demo.chat Demo.bob) 100%Q g
      = Ok (g', [buzz_notice Demo.bob])
      ∧ buzzed_in (state g') = Some Demo.bob.
Proof.
  intros g. split_and!.
  - vm_compute. reflexivity.
  - vm_compute. reflexivity.
  - refine (bool_decide_unpack _ _). vm_compute. exact I.
  - eexists. split; vm_compute; reflexivity.
Qed.

(** ** C10: the lock outlives a correct answer *)

Section C10.
Context `{PyText}.

(** C10. [post_question] empties the buzz list and opens the buzz window
    but does not touch [buzzed_in]. A correct answer leaves its author
    buzzed in, so once the next question is posted every buzz, from
    anyone and at any time, is refused without any change of state, while
    an answer from the previous answerer passes the test of the lock: it
    is never turned away as not buzzed in, and inside the twenty seconds
    of the old buzz a correct text scores the new question. *)
Theorem C10_stale_lock_blocks_the_next_question command2 u chat now g q0 :
  buzzed_in (state g) = Some u →
  (now - buzzed_in_time (state g) <= 20)%Q →
  current_question (state g) = Some q0 →
  is_correct (drop 1 command2) q0 →
  (∀ q g0,
     let g' := (post_question q g0).1 in
     buzzed (state g') = []
     ∧ buzz_open (state g') = true
     ∧ current_question (state g') = Some q
     ∧ buzzed_in (state g') = buzzed_in (state g0)
     ∧ buzzed_in_time (state g') = buzzed_in_time (state g0))
  ∧ ∃ g1 out1,
      handle_answer command2 u chat now g = Ok (g1, out1)
      ∧ buzzed_in (state g1) = Some u
      ∧ ∀ cmd cmd2 v chatv rnd g2 out2 q,
          handle_choose_question cmd cmd2 v chatv rnd g1 = Ok (g2, out2) →
          start_buzz_timeout q ∈ out2 →
          current_question (state g2) = Some q
          ∧ buzz_open (state g2) = true
          ∧ buzzed_in (state g2) = Some u
          ∧ (∀ x chatx nowx,
               handle_buzz x chatx nowx g2 = Ok (g2, [buzz_refusal chatx]))
          ∧ (∀ text chat' now',
               handle_answer text u chat' now' g2
               ≠ Ok (g2, [send_message "You didn't buzz in!" chat']))
          ∧ (∀ text chat' now',
               (now' - buzzed_in_time (state g) <= 20)%Q →
               is_correct (drop 1 text) q →
               ∃ g3 out3,
                 handle_answer text u chat' now' g2 = Ok (g3, out3)
                 ∧ dict_lookup (scores (state g3)) (py_str u)
                   = Some (dict_get (scores (state g2)) (py_str u) 0 + points q)
                 ∧ current_chooser (state g3) = Some u).
Proof.
  intros Hu Htime Hq0 Hok. split; [by intros q g0|].
  rewrite (handle_answer_correct _ _ _ _ _ q0) by done.
  do 2 eexists. split; [reflexivity|]. split; [exact Hu|].
  intros cmd cmd2 v chatv rnd g2 out2 q Hchoose Hposted.
  destruct (handle_choose_question_cases cmd cmd2 v chatv rnd
              (with_state g
                 (set_current_question None
                    (set_current_chooser (Some u)
                       (set_scores
                          (dict_set (dict_setdefault (scores (state g)) (py_str u) 0)
                             (py_str u)
                             (dict_get (scores (state g)) (py_str u) 0 + points q0))
                          (set_scores
                             (dict_setdefault (scores (state g)) (py_str u) 0)
                             (state g)))))))
    as (g2' & out2' & Hrun & Hcases).
  simpl in Hchoose. rewrite Hchoose in Hrun. injection Hrun as <- <-.
  destruct Hcases as [[_ [text ->]]|[(q' & _ & _ & _ & _ & ->)|(q' & _ & _ & _ & Hpost)]].
  - apply list_elem_of_singleton in Hposted. discriminate.
  - apply list_elem_of_singleton in Hposted. discriminate.
  - injection Hpost as -> ->.
    assert (q = q') as <-.
    { apply elem_of_cons in Hposted as [?|Hposted]; [discriminate|].
      apply list_elem_of_singleton in Hposted. congruence. }
    simpl. split_and!; [done..| | |].
    + intros x chatx nowx. apply handle_buzz_refused. left. simpl. by eexists.
    + intros text chat' now'.
      destruct (Qlt_le_dec 20 (now' - buzzed_in_time (state g))) as [Hlate|Hin].
      * rewrite handle_answer_timed_out by done. by intros [= _ ?].
      * destruct (decide (is_correct (drop 1 text) q)) as [Hc|Hc].
        -- rewrite (handle_answer_correct _ _ _ _ _ q) by done. by intros [= _ ?].
        -- rewrite (handle_answer_incorrect _ _ _ _ _ q) by done. by intros [= _ ?].
    + intros text chat' now' Hin Hc.
      rewrite (handle_answer_correct _ _ _ _ _ q) by done.
      do 2 eexists. split; [reflexivity|]. simpl.
      by rewrite dict_lookup_set_eq.
Qed.

End C10.

(** Ann answers the Science $200 tile and chooses the $400 one: she is
    still buzzed in, and Bob's buzz is refused. *)
Lemma C10_stale_lock_witness :
  let g := Demo.game_after [Demo.start; Demo.choose_mars Demo.no_luck;
                            Demo.ann_buzzes] in
  let g2 := Demo.game_after [Demo.start; Demo.choose_mars Demo.no_luck;
                             Demo.ann_buzzes; Demo.ann_answers_mars 105%Q;
                             Demo.choose_gold Demo.no_luck] in
  buzzed_in (state g) = Some Demo.ann
  ∧ (105 - buzzed_in_time (state g) <= 20)%Q
  ∧ current_question (state g) = Some Demo.mars
  ∧ @is_correct ascii_text (drop 1 ["answer"; "mars"]) Demo.mars
  ∧ current_question (state g2) = Some Demo.gold
  ∧ buzzed_in (state g2) = Some Demo.ann
  ∧ handle_buzz Demo.bob (Demo.chat Demo.bob) 107%Q g2
    = Ok (g2, [buzz_refusal (Demo.chat Demo.bob)]).
Proof.
  intros g g2.
  assert (H1 : buzzed_in (state g) = Some Demo.ann) by (vm_compute; reflexivity).
  assert (H2 : (105 - buzzed_in_time (state g) <= 20)%Q) by (vm_compute; discriminate).
  assert (H3 : current_question (state g) = Some Demo.mars) by (vm_compute; reflexivity).
  assert (H4 : @is_correct ascii_text (drop 1 ["answer"; "mars"]) Demo.mars)
    by (vm_compute; apply list_elem_of_here).
  split_and!; [exact H1|exact H2|exact H3|exact H4|..].
  all: destruct (@C10_stale_lock_blocks_the_next_question ascii_text
                   ["answer"; "mars"] Demo.ann (Demo.chat Demo.ann) 105%Q g
                   Demo.mars H1 H2 H3 H4)
         as [_ (g1 & out1 & Hans & _ & Hnext)].
  all: vm_compute in Hans; injection Hans as <- <-.
  all: edestruct (Hnext ["choose"; "400"; "science"] ["choose"; "400"; "Science"]
                    Demo.ann (Demo.chat Demo.ann) Demo.no_luck g2
                    (post_question Demo.gold g2).2 Demo.gold)
         as (Hq & _ & Hlock & Hbuzz & _);
         [vm_compute; reflexivity|apply list_elem_of_further, list_elem_of_here|].
  - exact Hq.
  - exact Hlock.
  - apply Hbuzz.
Defined.

(** ** C2: the states of a question *)

(** C2, as the code has it. In every state that a run of the bot reaches
    at most one of the three states holds, and none of them need hold:
    a buzz never changes [buzz_open], so the buzz that is accepted while
    the window is open leaves an active question, a buzzed-in user and an
    open window. *)
Theorem C2_at_most_one_substate `{PyText} es qs cats w :
  run es (boot qs cats) = Ok w →
  at_most_one_substate (state (game w))
  ∧ (∀ u chat now, ∃ w',
       step (buzz u chat now) w = Ok w'
       ∧ buzz_open (state (game w')) = buzz_open (state (game w))
       ∧ (buzz_window_open (state (game w)) →
          is_Some (current_question (state (game w')))
          ∧ buzzed_in (state (game w')) = Some u
          ∧ buzz_open (state (game w')) = true
          ∧ ¬ some_substate (state (game w')))).
Proof.
  intros _. split.
  - unfold at_most_one_substate, no_active_question, buzz_window_open, locked.
    split_and!.
    + intros [Hq [[q Hq'] _]]. congruence.
    + intros [Hq [[q Hq'] _]]. congruence.
    + intros [(_ & Hopen & _) (_ & _ & Hclosed)]. congruence.
  - intros u chat now. simpl.
    destruct (decide (buzzed_in (state (game w)) = None
                      ∧ is_Some (current_question (state (game w)))))
      as [[Hfree Hq]|Hno].
    + rewrite handle_buzz_accepted by done. simpl.
      eexists. split; [reflexivity|]. simpl. split; [done|].
      intros (_ & Hopen & _). split_and!; [done..|].
      unfold some_substate, no_active_question, buzz_window_open, locked. simpl.
      intros [Hnone|[(_ & _ & Hb)|(_ & _ & Hc)]]; [|done|congruence].
      destruct Hq as [q Hq']. congruence.
    + rewrite handle_buzz_refused; simpl.
      * eexists. split; [reflexivity|]. simpl. split; [done|].
        intros (Hq & _ & Hfree). by destruct Hno.
      * destruct (buzzed_in (state (game w))) eqn:Hb; [left; by eexists|].
        destruct (current_question (state (game w))) eqn:Hq; [|by right].
        destruct Hno. split; [done|by eexists].
Qed.

(** The run in which the Science tile is posted. *)
Lemma C2_at_most_one_witness :
  ∃ w,
    Demo.play [Demo.start; Demo.choose_mars Demo.no_luck] = Ok w
    ∧ buzz_window_open (state (game w))
    ∧ at_most_one_substate (state (game w))
    ∧ ∃ w',
        @step ascii_text Demo.ann_buzzes w = Ok w'
        ∧ buzz_open (state (game w')) = true
        ∧ ¬ some_substate (state (game w')).
Proof.
  eexists. split; [vm_compute; reflexivity|].
  split; [split_and!; [by eexists|done..]|].
  match goal with
  | |- at_most_one_substate (state (game ?w)) ∧ _ =>
      destruct (@C2_at_most_one_substate ascii_text
                  [Demo.start; Demo.choose_mars Demo.no_luck]
                  Demo.corpus Demo.corpus_categories w) as [Hone Hbuzz];
      [vm_compute; reflexivity|]
  end.
  split; [exact Hone|].
  destruct (Hbuzz Demo.ann (Demo.chat Demo.ann) 100%Q) as (w' & Hstep & _ & Hafter).
  exists w'. split; [exact Hstep|].
  destruct Hafter as (_ & _ & Hopen & Hnone); [|by split].
  split_and!; [by eexists|done..].
Defined.

(** C2 as claimed fails: after Ann's buzz on the posted tile none of the
    three states holds. *)
Lemma C2_counterexample :
  ∃ w,
    Demo.play [Demo.start; Demo.choose_mars Demo.no_luck; Demo.ann_buzzes] = Ok w
    ∧ current_question (state (game w)) = Some Demo.mars
    ∧ buzzed_in (state (game w)) = Some Demo.ann
    ∧ buzz_open (state (game w)) = true
    ∧ ¬ exactly_one_substate (state (game w)).
Proof.
  eexists. split; [vm_compute; reflexivity|].
  split_and!; [reflexivity..|].
  unfold exactly_one_substate, no_active_question, buzz_window_open, locked.
  simpl. intros [(Hq & _)|[(_ & (_ & _ & Hb) & _)|(_ & _ & (_ & _ & Hc))]];
    discriminate.
Qed.

(** ** [handle_daily_double] *)

Section daily_double_facts.
Context `{PyText}.

(** The call has an active question, at least two words and an integer
    as its first word: the handler scores it. *)
Lemma handle_daily_double_scored parts u chat g q w0 :
  current_question (state g) = Some q →
  (2 ≤ length parts)%nat →
  parts !! 0%nat ≫= py_int = Some w0 →
  let s := state g in
  let uid := py_str u in
  let score := dict_get (scores s) uid 0 in
  let wager := clamp_wager w0 score (round s) in
  let gain := if decide (is_correct (drop 1 parts) q) then wager else - wager in
  let g2 := with_state g
              (set_current_question None
                 (set_scores
                    (dict_set (dict_setdefault (scores s) uid 0) uid (score + gain))
                    s)) in
  ∃ verdict,
    handle_daily_double parts u chat g
    = Ok (g2, [send_message verdict MAIN_BUBBLE_ID;
               send_message (display_board g2) MAIN_BUBBLE_ID]).
Proof.
  intros Hq Hlen Hint. unfold handle_daily_double. rewrite Hq.
  destruct (length parts <? 2)%nat eqn:Hshort.
  { apply Nat.ltb_lt in Hshort. lia. }
  rewrite Hint. unfold py_in. simpl.
  destruct (decide (is_correct (drop 1 parts) q)) as [Hok|Hbad].
  - rewrite bool_decide_eq_true_2 by exact Hok.
    rewrite dict_iadd_setdefault. simpl. by eexists.
  - rewrite bool_decide_eq_false_2 by exact Hbad.
    rewrite dict_isub_setdefault. simpl. rewrite <- Z.add_opp_r. by eexists.
Qed.

Lemma clamp_wager_range wager score round :
  1 ≤ clamp_wager wager score round ≤ score `max` round_cap round.
Proof. unfold clamp_wager, round_cap. case_bool_decide; lia. Qed.

End daily_double_facts.

(** ** C4: when a daily-double answer is taken *)

Section C4.
Context `{PyText}.

(** C4, as the code has it. [handle_daily_double] never raises. Without
    an active question it is refused with one notice to the caller and no
    change of state, and so is a call of fewer than two words or with a
    first word that is not an integer. Every other call is taken,
    whatever the kind of the active question and whoever calls: it
    clears the active question whether the answer is right or wrong, and
    beyond that changes only the scores. *)
Theorem C4_daily_double_needs_only_an_active_question parts u chat g :
  ∃ g' out,
    handle_daily_double parts u chat g = Ok (g', out)
    ∧ (current_question (state g) = None →
       g' = g
       ∧ out = [send_message "There's no active daily double right now." chat])
    ∧ ((length parts < 2)%nat ∨ parts !! 0%nat ≫= py_int = None →
       g' = g ∧ ∃ text, out = [send_message text chat])
    ∧ (is_Some (current_question (state g)) →
       (2 ≤ length parts)%nat →
       is_Some (parts !! 0%nat ≫= py_int) →
       current_question (state g') = None
       ∧ g' = with_state g
                (set_current_question None
                   (set_scores (scores (state g')) (state g)))).
Proof.
  destruct (current_question (state g)) as [q|] eqn:Hq.
  - destruct (decide (2 ≤ length parts)%nat) as [Hlen|Hshort].
    + destruct (parts !! 0%nat ≫= py_int) as [w0|] eqn:Hint.
      * destruct (handle_daily_double_scored parts u chat g q w0 Hq Hlen Hint)
          as [verdict ->].
        do 2 eexists. split; [reflexivity|]. split_and!.
        -- done.
        -- intros [?|?]; [lia|done].
        -- intros _ _ _. by simpl.
      * unfold handle_daily_double. rewrite Hq, Hint.
        destruct (length parts <? 2)%nat;
          (do 2 eexists; split; [reflexivity|]; split_and!;
           [done|by eauto|by intros _ _ [? ?]]).
    + unfold handle_daily_double. rewrite Hq.
      destruct (length parts <? 2)%nat eqn:E.
      * do 2 eexists. split; [reflexivity|]. split_and!; [done|by eauto|].
        intros. lia.
      * apply Nat.ltb_ge in E. lia.
  - unfold handle_daily_double. rewrite Hq.
    do 2 eexists. split; [reflexivity|]. split_and!; [done|by eauto|].
    by intros [? ?].
Qed.

End C4.

(** A Daily Double is offered to Ann, who wagers 500 and answers. *)
Lemma C4_daily_double_witness :
  let g := Demo.game_after [Demo.start; Demo.choose_mars Demo.luck] in
  let parts := ["500"; "venus"] in
  is_Some (current_question (state g))
  ∧ (2 ≤ length parts)%nat
  ∧ is_Some (parts !! 0%nat ≫= ascii_int)
  ∧ ∃ g' out,
      @handle_daily_double ascii_text parts Demo.ann (Demo.chat Demo.ann) g
      = Ok (g', out)
      ∧ current_question (state g') = None
      ∧ dict_lookup (scores (state g')) "7" = Some (-500).
Proof.
  intros g parts.
  assert (H1 : is_Some (current_question (state g))) by (vm_compute; eauto).
  assert (H2 : (2 ≤ length parts)%nat) by (vm_compute; lia).
  assert (H3 : is_Some (parts !! 0%nat ≫= ascii_int)) by (vm_compute; eauto).
  split_and!; [exact H1|exact H2|exact H3|].
  destruct (@C4_daily_double_needs_only_an_active_question ascii_text
              parts Demo.ann (Demo.chat Demo.ann) g)
    as (g' & out & Hrun & _ & _ & Htaken).
  exists g', out. split; [exact Hrun|].
  split; [exact (proj1 (Htaken H1 H2 H3))|].
  vm_compute in Hrun. injection Hrun as <- _. reflexivity.
Defined.

(** C4 as claimed fails: on an ordinary question with the buzz window
    open, not a Daily Double, Bob's [dailydouble] call is taken: he is
    credited and the question is cleared. *)
Lemma C4_counterexample :
  let g := Demo.game_after [Demo.start; Demo.choose_mars Demo.no_luck] in
  buzz_open (state g) = true
  ∧ daily_double_used (state g) = ∅
  ∧ current_question (state g) = Some Demo.mars
  ∧ ∃ g' out,
      @handle_daily_double ascii_text ["5"; "mars"] Demo.bob (Demo.chat Demo.bob) g
      = Ok (g', out)
      ∧ g' ≠ g
      ∧ dict_lookup (scores (state g')) "8" = Some 5
      ∧ current_question (state g') = None.
Proof.
  intros g. split_and!; [vm_compute; reflexivity..|].
  do 2 eexists. split; [vm_compute; reflexivity|].
  split_and!; [|reflexivity..].
  intros Heq. apply (f_equal (λ g, current_question (state g))) in Heq.
  vm_compute in Heq. discriminate.
Qed.

(** ** C5: the wager of a Daily Double *)

Section C5.
Context `{PyText}.

(** C5, as the code has it. The wager that is scored lies between 1 and
    the larger of the caller's score and the cap of the round, 1000 in
    round 1 and 2000 otherwise: a submitted wager in that range is kept,
    a larger one is cut down to the upper end, and a wager of zero or
    less is not refused but raised to 1. The caller's score moves by
    exactly that wager, up for a right answer and down for a wrong one. *)
Theorem C5_wager_is_clamped_never_refused parts u chat g q w0 :
  current_question (state g) = Some q →
  (2 ≤ length parts)%nat →
  parts !! 0%nat ≫= py_int = Some w0 →
  let score := dict_get (scores (state g)) (py_str u) 0 in
  let top := score `max` (if bool_decide (round (state g) = 1) then 1000 else 2000) in
  ∃ wager g' out,
    handle_daily_double parts u chat g = Ok (g', out)
    ∧ 1 ≤ wager ≤ top
    ∧ (1 ≤ w0 ≤ top → wager = w0)
    ∧ (top < w0 → wager = top)
    ∧ (w0 ≤ 0 → wager = 1)
    ∧ dict_lookup (scores (state g')) (py_str u)
      = Some (if decide (is_correct (drop 1 parts) q)
              then score + wager else score - wager).
Proof.
  intros Hq Hlen Hint score top.
  destruct (handle_daily_double_scored parts u chat g q w0 Hq Hlen Hint)
    as [verdict Hrun].
  exists (clamp_wager w0 score (round (state g))). do 2 eexists.
  split; [exact Hrun|].
  pose proof (clamp_wager_range w0 score (round (state g))) as Hrange.
  unfold round_cap in Hrange. fold top in Hrange.
  split; [exact Hrange|].
  split_and!.
  - unfold clamp_wager. fold top. lia.
  - unfold clamp_wager. fold top. lia.
  - unfold clamp_wager. fold top. lia.
  - simpl. rewrite dict_lookup_set_eq. fold score.
    by destruct (decide _).
Qed.

End C5.

(** Ann holds nothing in round 1 and wagers 5000 on the Daily Double:
    1000 is scored. *)
Lemma C5_wager_witness :
  let g := Demo.game_after [Demo.start; Demo.choose_mars Demo.luck] in
  let parts := ["5000"; "mars"] in
  current_question (state g) = Some Demo.mars
  ∧ (2 ≤ length parts)%nat
  ∧ parts !! 0%nat ≫= ascii_int = Some 5000
  ∧ ∃ wager g' out,
      @handle_daily_double ascii_text parts Demo.ann (Demo.chat Demo.ann) g
      = Ok (g', out)
      ∧ wager = 1000
      ∧ dict_lookup (scores (state g')) "7" = Some 1000.
Proof.
  intros g parts.
  assert (H1 : current_question (state g) = Some Demo.mars) by (vm_compute; reflexivity).
  assert (H2 : (2 ≤ length parts)%nat) by (vm_compute; lia).
  assert (H3 : parts !! 0%nat ≫= ascii_int = Some 5000) by (vm_compute; reflexivity).
  split_and!; [exact H1|exact H2|exact H3|].
  destruct (@C5_wager_is_clamped_never_refused ascii_text parts Demo.ann
              (Demo.chat Demo.ann) g Demo.mars 5000 H1 H2 H3)
    as (wager & g' & out & Hrun & _ & _ & Htop & _ & _).
  exists wager, g', out. split; [exact Hrun|].
  split; [apply Htop; vm_compute; reflexivity|].
  vm_compute in Hrun. injection Hrun as <- _. reflexivity.
Defined.

(** C5 as claimed fails: a wager of zero on the Daily Double is not
    refused, it costs or earns one point. *)
Lemma C5_counterexample :
  let g := Demo.game_after [Demo.start; Demo.choose_mars Demo.luck] in
  ["0"; "mars"] !! 0%nat ≫= ascii_int = Some 0
  ∧ dict_get (scores (state g)) "7" 0 = 0
  ∧ ∃ g' out,
      @handle_daily_double ascii_text ["0"; "mars"] Demo.ann (Demo.chat Demo.ann) g
      = Ok (g', out)
      ∧ out ≠ [send_message "Invalid wager." (Demo.chat Demo.ann)]
      ∧ dict_get (scores (state g')) "7" 0 = 1.
Proof.
  intros g. split_and!; [vm_compute; reflexivity..|].
  do 2 eexists. split; [vm_compute; reflexivity|].
  split; [discriminate|reflexivity].
Qed.

(** ** C6: commands when no game is running *)

(** C6. When Final Jeopardy has ended a game, [running] is false and the
    final question is still the active one. [handle_choose_question]
    tests [running] and refuses; the other handlers do not: Ann's late
    answer clears the lock, Bob's buzz is accepted, his answer earns him
    200 points, and he registers for Final Jeopardy, all with no game
    running. *)
Theorem C6_only_choose_tests_running :
  let ended := Demo.game_after Demo.whole_game in
  let later := Demo.game_after (Demo.whole_game ++ Demo.after_the_end) in
  running (state ended) = false
  ∧ current_question (state ended) = Some Demo.mars
  ∧ buzzed_in (state ended) = Some Demo.ann
  ∧ scores (state ended) = [("7", 200)]
  ∧ final_registered (state ended) = ["7"]
  ∧ @handle_choose_question ascii_text ["choose"; "400"; "science"]
      ["choose"; "400"; "Science"] Demo.bob (Demo.chat Demo.bob) Demo.no_luck ended
    = Ok (ended, [send_message "No game is currently running." (Demo.chat Demo.bob)])
  ∧ handle_buzz Demo.bob (Demo.chat Demo.bob) 401%Q
      (Demo.game_after (Demo.whole_game ++ take 1 Demo.after_the_end))
    = Ok (Demo.game_after (Demo.whole_game ++ take 2 Demo.after_the_end),
          [buzz_notice Demo.bob])
  ∧ running (state later) = false
  ∧ buzzed_in (state later) = Some Demo.bob
  ∧ scores (state later) = [("7", 200); ("8", 200)]
  ∧ final_registered (state later) = ["7"; "8"].
Proof. vm_compute. by split_and!. Qed.

(** ** C9: Daily Doubles across games *)

(** Starting a game keeps [daily_double_used] as it is. *)
Lemma handle_start_jeopardy_keeps_daily_double_used rng chat g g' out :
  handle_start_jeopardy rng chat g = Ok (g', out) →
  daily_double_used (state g') = daily_double_used (state g).
Proof.
  unfold handle_start_jeopardy, setup_board. intros Hrun.
  repeat case_match; by simplify_eq/=.
Qed.

(** C9. In a first game the Science $200 tile is chosen with a draw
    below 0.1 and becomes a Daily Double. Final Jeopardy ends that game
    and [startjeopardy] begins a new one, with fresh scores, but
    [daily_double_used] still holds the pair: the same choice with the
    same draw now posts the tile as an ordinary question.
    [handle_start_jeopardy] empties [daily_doubles], a set that nothing
    reads, and leaves [daily_double_used] as it was. *)
Theorem C9_daily_double_flag_survives_a_new_game :
  let first := [Demo.start; Demo.choose_mars Demo.luck] in
  let restarted := Demo.daily_double_game ++ [Demo.start] in
  let second := restarted ++ [Demo.choose_mars Demo.luck] in
  Demo.last_effect first
  = Some (send_message "Daily Double! Use !dailydouble [amount] [answer]"
            MAIN_BUBBLE_ID)
  ∧ buzz_open (state (Demo.game_after first)) = false
  ∧ running (state (Demo.game_after Demo.daily_double_game)) = false
  ∧ running (state (Demo.game_after restarted)) = true
  ∧ scores (state (Demo.game_after restarted)) = []
  ∧ daily_doubles (state (Demo.game_after restarted)) = ∅
  ∧ daily_double_used (state (Demo.game_after restarted)) = {[ ("Science", 200) ]}
  ∧ Demo.mars ∈ board (state (Demo.game_after restarted))
  ∧ Demo.last_effect second = Some (start_buzz_timeout Demo.mars)
  ∧ current_question (state (Demo.game_after second)) = Some Demo.mars
  ∧ buzz_open (state (Demo.game_after second)) = true.
Proof.
  split_and!;
    first [ refine (bool_decide_unpack _ _); vm_compute; exact I
          | vm_compute; reflexivity ].
Qed.

(** ** Final Jeopardy *)

Section final_facts.
Context `{PyText}.

Lemma reply_wager_Some msg w0 :
  reply_wager msg = Some w0 ↔ well_formed_reply msg w0.
Proof.
  unfold reply_wager, well_formed_reply.
  destruct (py_startswith msg "!finaljeopardy").
  2: { split; [done|]. by intros [? _]. }
  destruct (Nat.leb_spec 3 (length (py_split msg))) as [Hlen|Hlen].
  2: { split; [done|]. intros (_ & ? & _). lia. }
  destruct (py_split msg !! 1%nat ≫= py_int) as [w|]; cbn [mbind option_bind].
  2: { split; [done|]. by intros (_ & _ & ? & _). }
  destruct (Z.ltb_spec 0 w) as [Hpos|Hpos].
  - split; [by intros [= ->]|by intros (_ & _ & ? & _)].
  - split; [done|]. intros (_ & _ & [= ->] & ?). lia.
Qed.


(** One turn of the settling loop, for a user who has a score. *)
Lemma settle_final_reply_spec final_q inbox sc out uid old :
  dict_lookup sc uid = Some old →
  ∃ out',
    settle_final_reply final_q inbox (sc, out) uid
    = Ok (match reply_wager (inbox (DM uid)) with
          | Some _ => dict_set sc uid (score_after_reply final_q (inbox (DM uid)) old)
          | None => sc
          end, out').
Proof.
  intros Hold. unfold settle_final_reply, score_after_reply, reply_wager.
  destruct (py_startswith _ _); cbn [negb]; [|by eexists].
  destruct (Nat.ltb_spec (length (py_split (inbox (DM uid)))) 3) as [Hlen|Hlen];
    destruct (Nat.leb_spec 3 (length (py_split (inbox (DM uid))))) as [Hlen'|Hlen'];
    try lia; [by eexists|].
  destruct (py_split (inbox (DM uid)) !! 1%nat ≫= py_int) as [w0|];
    cbn [mbind option_bind]; [|by eexists].
  destruct (Z.leb_spec w0 0) as [Hpos|Hpos];
    destruct (Z.ltb_spec 0 w0) as [Hpos'|Hpos']; try lia; [by eexists|].
  unfold settled_score, dict_get, py_in, dict_iadd, dict_isub.
  rewrite Hold. simpl.
  destruct (Z.gtb_spec w0 old) as [Hbig|Hsmall];
    destruct (decide (old < w0)) as [Hbig'|Hsmall']; try lia;
    destruct (decide (is_correct _ final_q)) as [Hok|Hbad];
    rewrite ?(bool_decide_eq_true_2 _ Hok), ?(bool_decide_eq_false_2 _ Hbad).
  all: by eexists.
Qed.

(** The whole loop: with no user listed twice and a score for each, it
    does not raise, keeps the keys of [scores] in their order, settles
    each listed user once and leaves the others alone. *)
Lemma settle_final_replies_spec final_q inbox uids :
  NoDup uids →
  ∀ sc out,
    (∀ uid, uid ∈ uids → is_Some (dict_lookup sc uid)) →
    ∃ sc' out',
      settle_final_replies final_q inbox (sc, out) uids = Ok (sc', out')
      ∧ sc'.*1 = sc.*1
      ∧ (∀ uid, uid ∈ uids →
           dict_lookup sc' uid
           = score_after_reply final_q (inbox (DM uid)) <$> dict_lookup sc uid)
      ∧ (∀ uid, uid ∉ uids → dict_lookup sc' uid = dict_lookup sc uid).
Proof.
  induction 1 as [|uid uids Hfresh Hnodup IH]; intros sc out Hhave;
    cbn [settle_final_replies].
  - do 2 eexists. split; [reflexivity|]. split_and!; [done| |done].
    intros uid Hin. by apply elem_of_nil in Hin.
  - destruct (Hhave uid) as [old Hold]; [by left|].
    destruct (settle_final_reply_spec final_q inbox sc out uid old Hold)
      as [out1 ->]. cbn [mbind result_bind].
    set (sc1 := match reply_wager (inbox (DM uid)) with
                | Some _ => dict_set sc uid
                              (score_after_reply final_q (inbox (DM uid)) old)
                | None => sc
                end).
    assert (Hkeys : sc1.*1 = sc.*1).
    { unfold sc1. destruct (reply_wager _); [|done].
      apply dict_set_keys. by eexists. }
    assert (Hsame : ∀ k, k ≠ uid → dict_lookup sc1 k = dict_lookup sc k).
    { intros k Hk. unfold sc1. destruct (reply_wager _); [|done].
      by apply dict_lookup_set_ne. }
    assert (Hhere : dict_lookup sc1 uid
                    = Some (score_after_reply final_q (inbox (DM uid)) old)).
    { unfold sc1, score_after_reply. destruct (reply_wager _); [|done].
      apply dict_lookup_set_eq. }
    destruct (IH sc1 out1) as (sc' & out' & Hrun & Hkeys' & Hin' & Hout').
    { intros k Hk. rewrite Hsame; [apply Hhave; by right|].
      intros ->. done. }
    exists sc', out'. split; [exact Hrun|]. split_and!.
    + congruence.
    + intros k [->|Hk]%elem_of_cons.
      * rewrite Hout' by done. by rewrite Hhere, Hold.
      * rewrite Hin' by done. rewrite Hsame; [done|]. intros ->. done.
    + intros k Hk. apply not_elem_of_cons in Hk as [Hne Hk].
      rewrite Hout' by done. by apply Hsame.
Qed.

End final_facts.

(** ** What every run preserves *)

Lemma dict_lookup_is_Some_keys {V} (d : dict V) k :
  is_Some (dict_lookup d k) ↔ k ∈ d.*1.
Proof.
  induction d as [|[k' v'] d IH]; simpl.
  - split; [by intros [? ?]|by intros ?%elem_of_nil].
  - destruct (decide (k = k')) as [->|Hne].
    + split; [intros _; by left|by eexists].
    + rewrite IH, elem_of_cons. split; [by right|]. by intros [?|?].
Qed.

Lemma dict_set_is_Some {V} (d : dict V) k k' v :
  is_Some (dict_lookup d k') → is_Some (dict_lookup (dict_set d k v) k').
Proof.
  intros Hk'. destruct (decide (k = k')) as [->|Hne].
  - rewrite dict_lookup_set_eq. by eexists.
  - by rewrite dict_lookup_set_ne.
Qed.

Lemma dict_setdefault_is_Some {V} (d : dict V) k k' v :
  is_Some (dict_lookup d k') → is_Some (dict_lookup (dict_setdefault d k v) k').
Proof.
  intros Hk'. unfold dict_setdefault.
  destruct (dict_lookup d k); [done|by apply dict_set_is_Some].
Qed.

Lemma grows_refl g : grows g g.
Proof. by split_and!. Qed.

Lemma grows_registered_ok g g' :
  grows g g' → registered_ok (state g) → registered_ok (state g').
Proof.
  intros (_ & _ & Hreg & Hsc) [Hnodup Hhave]. split; rewrite Hreg; [done|].
  intros uid Hin. by apply Hsc, Hhave.
Qed.

Section run_facts.
Context `{PyText}.

Lemma handle_choose_question_grows command command2 u chat rnd g g' out :
  handle_choose_question command command2 u chat rnd g = Ok (g', out) →
  grows g g'.
Proof.
  intros Hrun.
  destruct (handle_choose_question_cases command command2 u chat rnd g)
    as (g2 & out2 & Hrun2 & Hcases).
  rewrite Hrun in Hrun2. injection Hrun2 as <- <-.
  destruct Hcases as [[-> _]|[(q & _ & _ & _ & -> & _)|(q & _ & _ & _ & Hpost)]].
  - apply grows_refl.
  - by split_and!.
  - injection Hpost as -> _. by split_and!.
Qed.

Lemma handle_buzz_grows u chat now g g' out :
  handle_buzz u chat now g = Ok (g', out) → grows g g'.
Proof.
  unfold handle_buzz. intros Hrun.
  destruct (_ && _); injection Hrun as <- _; by split_and!.
Qed.

Lemma handle_answer_grows command2 u chat now g g' out :
  handle_answer command2 u chat now g = Ok (g', out) → grows g g'.
Proof.
  unfold handle_answer, dict_iadd, dict_isub. intros Hrun.
  repeat case_match; simplify_eq/=; split_and!; try done.
  all: intros k Hk; by apply dict_set_is_Some, dict_setdefault_is_Some.
Qed.

Lemma handle_daily_double_grows parts u chat g g' out :
  handle_daily_double parts u chat g = Ok (g', out) → grows g g'.
Proof.
  unfold handle_daily_double, dict_iadd, dict_isub. intros Hrun.
  repeat case_match; simplify_eq/=; split_and!; try done.
  all: intros k Hk; by apply dict_set_is_Some, dict_setdefault_is_Some.
Qed.

Lemma buzz_timeout_grows q g : grows g (buzz_timeout q g).1.
Proof.
  unfold buzz_timeout. repeat case_match; simpl; by split_and!.
Qed.

Lemma handle_register_ok u chat g g' out :
  handle_register u chat g = Ok (g', out) →
  registered_ok (state g) →
  questions g' = questions g
  ∧ all_categories g' = all_categories g
  ∧ registered_ok (state g').
Proof.
  unfold handle_register. intros Hrun [Hnodup Hhave].
  destruct (Z.ltb_spec (dict_get (scores (state g)) (py_str u) 0) 1) as [Hlow|Hhigh].
  { injection Hrun as <- _. by split_and!. }
  unfold py_in in Hrun. case_bool_decide as Hin; simpl in Hrun;
    injection Hrun as <- _; [by split_and!|].
  split_and!; [done..|]. split; simpl.
  - apply NoDup_app. split_and!; [done| |apply NoDup_singleton].
    intros k Hk ->%list_elem_of_singleton. done.
  - intros k [Hk| ->%list_elem_of_singleton]%elem_of_app; [by apply Hhave|].
    unfold dict_get in Hhigh.
    destruct (dict_lookup (scores (state g)) (py_str u)); [by eexists|].
    simpl in Hhigh. lia.
Qed.

Lemma handle_start_jeopardy_ok rng chat g g' out :
  handle_start_jeopardy rng chat g = Ok (g', out) →
  registered_ok (state g) →
  questions g' = questions g
  ∧ all_categories g' = all_categories g
  ∧ registered_ok (state g').
Proof.
  unfold handle_start_jeopardy, setup_board. intros Hrun Hok.
  destruct (running (state g)); simpl in Hrun.
  { injection Hrun as <- _. by split_and!. }
  destruct (_ <? 6)%nat; simpl in Hrun; [done|].
  injection Hrun as <- _. split_and!; [done..|]. split; simpl.
  - apply NoDup_nil_2.
  - intros uid Hin. by apply elem_of_nil in Hin.
Qed.

End run_facts.

Lemma random_choice_nonempty {A} (draw : nat) (l : list A) :
  l ≠ [] → is_Some (random_choice draw l).
Proof.
  intros Hl. unfold random_choice. apply lookup_lt_is_Some.
  apply Nat.mod_upper_bound. by destruct l.
Qed.

Section final_run_facts.
Context `{PyText}.

(** [start_final_jeopardy] with somebody registered. *)
Lemma start_final_jeopardy_spec draw inbox g final_q :
  final_registered (state g) ≠ [] →
  registered_ok (state g) →
  random_choice draw (questions g) = Some final_q →
  ∃ sc out,
    start_final_jeopardy draw inbox g
    = Ok (with_state g
            (set_running false
               (set_scores sc (set_current_question (Some final_q) (state g)))),
          out ++ [send_message (leaderboard_text (ranking sc)) MAIN_BUBBLE_ID])
    ∧ sc.*1 = (scores (state g)).*1
    ∧ (∀ uid, uid ∈ final_registered (state g) →
         dict_lookup sc uid
         = score_after_reply final_q (inbox (DM uid))
             <$> dict_lookup (scores (state g)) uid)
    ∧ (∀ uid, uid ∉ final_registered (state g) →
         dict_lookup sc uid = dict_lookup (scores (state g)) uid).
Proof.
  intros Hsome [Hnodup Hhave] Hdraw. unfold start_final_jeopardy.
  destruct (final_registered (state g)) as [|uid0 uids] eqn:Hreg; [done|].
  rewrite Hdraw. cbn [final_registered set_current_question scores].
  rewrite Hreg.
  edestruct (settle_final_replies_spec final_q inbox (uid0 :: uids) Hnodup)
    as (sc & out & Hrun & Hkeys & Hin & Hout); [exact Hhave|].
  rewrite Hrun. cbn [mbind result_bind].
  exists sc, out. by split_and!.
Qed.

Lemma start_final_jeopardy_ok draw inbox g g' out :
  start_final_jeopardy draw inbox g = Ok (g', out) →
  registered_ok (state g) →
  questions g' = questions g
  ∧ all_categories g' = all_categories g
  ∧ registered_ok (state g').
Proof.
  intros Hrun Hok.
  destruct (final_registered (state g)) as [|uid0 uids] eqn:Hreg.
  { unfold start_final_jeopardy in Hrun. rewrite Hreg in Hrun.
    injection Hrun as <- _. by split_and!. }
  destruct (random_choice draw (questions g)) as [final_q|] eqn:Hdraw.
  2: { unfold start_final_jeopardy in Hrun. by rewrite Hreg, Hdraw in Hrun. }
  destruct (start_final_jeopardy_spec draw inbox g final_q)
    as (sc & out0 & Hrun' & Hkeys & _); [by rewrite Hreg|done..|].
  rewrite Hrun in Hrun'. injection Hrun' as -> _.
  split_and!; [done..|]. destruct Hok as [Hnodup Hhave]. split; simpl; [done|].
  intros uid Hin. apply dict_lookup_is_Some_keys. rewrite Hkeys.
  by apply dict_lookup_is_Some_keys, Hhave.
Qed.

Lemma grows_ok g g' :
  grows g g' →
  registered_ok (state g) →
  questions g' = questions g
  ∧ all_categories g' = all_categories g
  ∧ registered_ok (state g').
Proof.
  intros Hgrows Hok. split_and!; [apply Hgrows..|].
  by apply (grows_registered_ok g).
Qed.

Lemma step_registered_ok e w w' :
  step e w = Ok w' →
  registered_ok (state (game w)) →
  questions (game w') = questions (game w)
  ∧ all_categories (game w') = all_categories (game w)
  ∧ registered_ok (state (game w')).
Proof.
  intros Hstep Hok. destruct e; simpl in Hstep.
  - destruct (handle_start_jeopardy _ _ _) as [[g' out]|] eqn:E; [|done].
    injection Hstep as <-. by apply (handle_start_jeopardy_ok rng chat _ _ out).
  - destruct (handle_choose_question _ _ _ _ _ _) as [[g' out]|] eqn:E; [|done].
    injection Hstep as <-. apply grows_ok; [|done].
    by eapply handle_choose_question_grows.
  - destruct (handle_buzz _ _ _ _) as [[g' out]|] eqn:E; [|done].
    injection Hstep as <-. apply grows_ok; [|done]. by eapply handle_buzz_grows.
  - destruct (handle_answer _ _ _ _ _) as [[g' out]|] eqn:E; [|done].
    injection Hstep as <-. apply grows_ok; [|done]. by eapply handle_answer_grows.
  - destruct (handle_daily_double _ _ _ _) as [[g' out]|] eqn:E; [|done].
    injection Hstep as <-. apply grows_ok; [|done].
    by eapply handle_daily_double_grows.
  - injection Hstep as <-. by split_and!.
  - destruct (handle_register _ _ _) as [[g' out]|] eqn:E; [|done].
    injection Hstep as <-. by apply (handle_register_ok user_id chat _ _ out).
  - destruct (start_final_jeopardy _ _ _) as [[g' out]|] eqn:E; [|done].
    injection Hstep as <-. by apply (start_final_jeopardy_ok draw inbox _ _ out).
  - destruct (py_in _ _); injection Hstep as <-; [|by split_and!].
    apply grows_ok; [|done]. apply buzz_timeout_grows.
Qed.

Lemma run_registered_ok es w w' :
  run es w = Ok w' →
  registered_ok (state (game w)) →
  questions (game w') = questions (game w)
  ∧ all_categories (game w') = all_categories (game w)
  ∧ registered_ok (state (game w')).
Proof.
  revert w. induction es as [|e es IH]; intros w Hrun Hok; simpl in Hrun.
  - injection Hrun as <-. by split_and!.
  - destruct (step e w) as [w1|] eqn:Hstep; [|done]. simpl in Hrun.
    destruct (step_registered_ok e w w1 Hstep Hok) as (Hq & Hc & Hok1).
    destruct (IH w1 Hrun Hok1) as (Hq' & Hc' & Hok').
    split_and!; [congruence..|done].
Qed.

Lemma boot_registered_ok qs cats : registered_ok (state (game (boot qs cats))).
Proof.
  split; simpl; [apply NoDup_nil_2|]. intros uid Hin. by apply elem_of_nil in Hin.
Qed.

End final_run_facts.

(** ** C8: Final Jeopardy *)

Section C8.
Context `{PyText}.


End C8.


(** ** The dispatcher *)

(** [check_for_commands] hands the words of the message to
    [handle_daily_double] with the command word first, which the handler
    reads as the wager: on ASCII text a [!dailydouble] message with an
    active question is answered "Invalid wager.". The properties of C4
    and C5 are those of the handler called with the wager first, as its
    usage line has it. *)
Remark daily_double_through_the_dispatcher :
  let g := Demo.game_after [Demo.start; Demo.choose_mars Demo.luck] in
  @check_for_commands ascii_text "!dailydouble 500 mars" Demo.ann
    {| clock := 100%Q; random_number := Demo.no_luck; board_draw := Demo.rng |} g
  = Ok (g, [send_message "Invalid wager." (Demo.chat Demo.ann)]).
Proof. vm_compute. reflexivity. Qed.

(** The other commands reach their handlers as in the runs above. *)
Remark answer_through_the_dispatcher :
  let g := Demo.game_after [Demo.start; Demo.choose_mars Demo.no_luck;
                            Demo.ann_buzzes] in
  @check_for_commands ascii_text "!answer Mars" Demo.ann
    {| clock := 105%Q; random_number := Demo.no_luck; board_draw := Demo.rng |} g
  = @handle_answer ascii_text ["answer"; "Mars"] Demo.ann (Demo.chat Demo.ann) 105%Q g.
Proof. vm_compute. reflexivity. Qed.

(** * Further properties of the engine *)

(** ** [setup_board] *)

Lemma foldl_app_bind {A B} (f : B → list A) (l : list B) (acc : list A) :
  foldl (λ b x, b ++ f x) acc l = acc ++ (l ≫= f).
Proof.
  revert acc. induction l as [|x l IH]; intros acc.
  - simpl. by rewrite app_nil_r.
  - cbn [foldl]. by rewrite IH, bind_cons, (assoc_L (++)).
Qed.

Lemma setup_board_unfold rng g :
  setup_board rng g
  = if (length (all_categories g) <? 6)%nat then Raise ValueError
    else Ok (with_state g
               (set_board (sample_categories rng ≫= tiles_of rng (questions g))
                  (set_categories (sample_categories rng) (state g)))).
Proof.
  unfold setup_board. destruct (_ <? 6)%nat; [done|].
  do 3 f_equal. by rewrite (foldl_app_bind (tiles_of rng (questions g))).
Qed.

Lemma elem_of_sorted_by {A} (key : A → Z) (l : list A) x :
  x ∈ sorted_by key l ↔ x ∈ l.
Proof. by rewrite sorted_by_Permutation. Qed.

Lemma elem_of_point_values qs cat pts :
  pts ∈ point_values qs cat
  ↔ ∃ q, q ∈ qs ∧ category_id q = cat ∧ points q = pts.
Proof.
  unfold point_values.
  rewrite elem_of_sorted_by, elem_of_remove_dups, list_elem_of_fmap.
  setoid_rewrite list_elem_of_filter. split.
  - intros (q & -> & Hcat & Hq). by exists q.
  - intros (q & Hq & Hcat & <-). by exists q.
Qed.

Lemma NoDup_point_values qs cat : NoDup (point_values qs cat).
Proof.
  unfold point_values. rewrite sorted_by_Permutation. apply NoDup_remove_dups.
Qed.

(** Ascending without repetition is strictly ascending. *)
Lemma point_values_increasing qs cat :
  StronglySorted Z.lt (point_values qs cat).
Proof.
  pose proof (NoDup_point_values qs cat) as Hnodup.
  assert (Hsorted : StronglySorted (ascending id) (point_values qs cat))
    by apply sorted_by_sorted.
  induction Hsorted as [|x l Hl IH Hx]; [constructor|].
  apply NoDup_cons in Hnodup as [Hfresh Hnodup].
  constructor; [by apply IH|].
  rewrite Forall_forall in Hx |- *. intros y Hy.
  specialize (Hx y Hy). unfold ascending, id in Hx.
  assert (x ≠ y) by (intros ->; done). lia.
Qed.

Lemma random_choice_elem_of {A} (draw : nat) (l : list A) x :
  random_choice draw l = Some x → x ∈ l.
Proof. unfold random_choice. apply list_elem_of_lookup_2. Qed.

(** Every point value of a category yields one tile, at that value. *)
Lemma tiles_of_spec rng qs cat :
  Forall2 (λ q pts, q ∈ qs ∧ category_id q = cat ∧ points q = pts)
          (tiles_of rng qs cat) (point_values qs cat).
Proof.
  unfold tiles_of.
  assert (Hall : ∀ pts, pts ∈ point_values qs cat →
                        ∃ q, q ∈ qs ∧ category_id q = cat ∧ points q = pts)
    by (intros pts; apply elem_of_point_values).
  induction (point_values qs cat) as [|pts l IH]; simpl; [constructor|].
  destruct (Hall pts) as (q0 & Hq0 & Hcat0 & Hpts0); [by left|].
  assert (Hin : q0 ∈ filter (λ q, points q = pts)
                      (filter (λ q, category_id q = cat) qs))
    by by rewrite !list_elem_of_filter.
  destruct (filter (λ q, points q = pts) _) as [|q1 rest] eqn:Hat;
    [by apply elem_of_nil in Hin|].
  destruct (random_choice_nonempty (choice_index rng cat pts) (q1 :: rest))
    as [q Hq]; [done|].
  rewrite Hq. constructor.
  - apply random_choice_elem_of in Hq. rewrite <- Hat in Hq.
    rewrite !list_elem_of_filter in Hq. by destruct Hq as (? & ? & ?).
  - apply IH. intros p Hp. apply Hall. by right.
Qed.

Lemma tiles_of_coordinates rng qs cat :
  coordinate <$> tiles_of rng qs cat = (λ pts, (cat, pts)) <$> point_values qs cat.
Proof.
  induction (tiles_of_spec rng qs cat) as [|q pts tiles vals (_ & <- & <-) _ IH];
    [done|].
  rewrite !fmap_cons. by rewrite IH.
Qed.

Lemma tiles_of_sound rng qs cat q :
  q ∈ tiles_of rng qs cat → q ∈ qs ∧ category_id q = cat.
Proof.
  intros Hq. pose proof (tiles_of_spec rng qs cat) as Hspec.
  apply list_elem_of_lookup in Hq as [i Hi].
  by destruct (Forall2_lookup_l _ _ _ _ _ Hspec Hi) as (pts & _ & Hin & <- & _).
Qed.

Lemma setup_board_sound rng g g' :
  setup_board rng g = Ok g' →
  questions g' = questions g
  ∧ categories (state g') = sample_categories rng
  ∧ ∀ q, q ∈ board (state g') →
         q ∈ questions g ∧ category_id q ∈ sample_categories rng.
Proof.
  rewrite setup_board_unfold.
  destruct (_ <? 6)%nat; [done|]. intros [= <-]. simpl.
  split_and!; [done..|]. intros q (cat & Hq & Hcat)%list_elem_of_bind.
  apply tiles_of_sound in Hq as [? <-]. done.
Qed.

Section setup_board_props.
Context (rng : BoardDraw) (g g' : JeopardyGame).
Hypothesis Hsetup : setup_board rng g = Ok g'.

(** [setup_board] puts on the board only questions of the corpus, each in
    one of the sampled categories, and records these as the categories of
    the game. *)
Theorem setup_board_tiles_from_corpus :
  categories (state g') = sample_categories rng
  ∧ ∀ q, q ∈ board (state g') →
         q ∈ questions g ∧ category_id q ∈ sample_categories rng.
Proof. by destruct (setup_board_sound rng g g' Hsetup) as (_ & ? & ?). Qed.

(** The coordinates of the new board, in order: category by category as
    sampled, and within a category every point value that the corpus has
    for it, once each and in strictly ascending order. *)
Theorem setup_board_one_tile_per_point_value :
  coordinate <$> board (state g')
  = sample_categories rng
      ≫= (λ cat, (λ pts, (cat, pts)) <$> point_values (questions g) cat)
  ∧ ∀ cat,
      StronglySorted Z.lt (point_values (questions g) cat)
      ∧ ∀ pts, pts ∈ point_values (questions g) cat
               ↔ ∃ q, q ∈ questions g ∧ category_id q = cat ∧ points q = pts.
Proof.
  rewrite setup_board_unfold in Hsetup.
  destruct (_ <? 6)%nat; [done|]. injection Hsetup as <-. simpl. split.
  - induction (sample_categories rng) as [|cat cats IH]; [done|].
    rewrite !bind_cons, fmap_app, IH. f_equal. apply tiles_of_coordinates.
  - intros cat. split; [apply point_values_increasing|].
    intros pts. apply elem_of_point_values.
Qed.

(** With no category sampled twice, no two tiles of the new board share
    a coordinate, so no question is on the board twice. *)
Theorem setup_board_coordinates_distinct :
  NoDup (sample_categories rng) →
  NoDup (coordinate <$> board (state g')) ∧ NoDup (board (state g')).
Proof.
  intros Hnodup.
  assert (Hcoords : NoDup (coordinate <$> board (state g'))).
  { rewrite setup_board_unfold in Hsetup.
    destruct (_ <? 6)%nat; [done|]. injection Hsetup as <-. simpl.
    assert (coordinate <$> (sample_categories rng ≫= tiles_of rng (questions g))
            = sample_categories rng
                ≫= (λ cat, (λ pts, (cat, pts)) <$> point_values (questions g) cat))
      as ->.
    { induction (sample_categories rng) as [|cat cats IH]; [done|].
      rewrite !bind_cons, fmap_app, IH; [|by apply NoDup_cons in Hnodup as [_ ?]].
      f_equal. apply tiles_of_coordinates. }
    apply NoDup_bind; [| |done].
    - intros c1 c2 [c pts] _ _ (p1 & [= -> _] & _)%list_elem_of_fmap
        (p2 & [= -> _] & _)%list_elem_of_fmap. done.
    - intros cat _. apply NoDup_fmap_2; [|apply NoDup_point_values].
      by intros p1 p2 [= ->]. }
  split; [done|]. by apply NoDup_fmap_1 in Hcoords.
Qed.

End setup_board_props.

(** ** [display_board] *)

Lemma string_app_assoc (s1 s2 s3 : string) :
  (s1 +:+ s2) +:+ s3 = s1 +:+ (s2 +:+ s3).
Proof.
  induction s1 as [|c s1 IH]; [reflexivity|].
  change (String c ((s1 +:+ s2) +:+ s3) = String c (s1 +:+ s2 +:+ s3)).
  by f_equal.
Qed.

Lemma string_app_empty_r (s : string) : s +:+ "" = s.
Proof.
  induction s as [|c s IH]; [reflexivity|].
  change (String c (s +:+ "") = String c s). by f_equal.
Qed.









(** ** What the handlers leave alone *)

Lemma same_layout_refl g : same_layout g g.
Proof. by split_and!. Qed.

Lemma list_remove_subset `{EqDecision A} (x y : A) (l : list A) :
  y ∈ list_remove x l → y ∈ l.
Proof.
  induction l as [|z l IH]; simpl; [done|].
  destruct (decide (x = z)); [by right|].
  intros [->|Hy]%elem_of_cons; [by left|]. right. by apply IH.
Qed.

Lemma list_remove_NoDup `{EqDecision A} (x : A) (l : list A) :
  NoDup l → (x ∉ list_remove x l) ∧ NoDup (list_remove x l).
Proof.
  induction 1 as [|z l Hz Hl IH]; simpl.
  - split; [apply not_elem_of_nil|constructor].
  - destruct (decide (x = z)) as [->|Hne]; [done|].
    destruct IH as [IH1 IH2]. split.
    + by intros [?|?]%elem_of_cons.
    + constructor; [|done]. intros Hin. by apply list_remove_subset in Hin.
Qed.

Section layout_facts.
Context `{PyText}.

Lemma handle_choose_question_layout command command2 u chat rnd g g' out :
  handle_choose_question command command2 u chat rnd g = Ok (g', out) →
  same_layout g g'.
Proof.
  intros Hrun.
  destruct (handle_choose_question_cases command command2 u chat rnd g)
    as (g2 & out2 & Hrun2 & Hcases).
  rewrite Hrun in Hrun2. injection Hrun2 as <- <-.
  destruct Hcases as [[-> _]|[(q & _ & _ & _ & -> & _)|(q & _ & _ & _ & Hpost)]].
  - apply same_layout_refl.
  - split_and!; simpl; [done..|]. set_solver.
  - injection Hpost as -> _. by split_and!.
Qed.

Lemma handle_buzz_layout u chat now g g' out :
  handle_buzz u chat now g = Ok (g', out) → same_layout g g'.
Proof.
  unfold handle_buzz. intros Hrun.
  destruct (_ && _); injection Hrun as <- _; by split_and!.
Qed.

Lemma handle_answer_layout command2 u chat now g g' out :
  handle_answer command2 u chat now g = Ok (g', out) → same_layout g g'.
Proof.
  unfold handle_answer, dict_iadd, dict_isub. intros Hrun.
  repeat case_match; simplify_eq/=; by split_and!.
Qed.

Lemma handle_daily_double_layout parts u chat g g' out :
  handle_daily_double parts u chat g = Ok (g', out) → same_layout g g'.
Proof.
  unfold handle_daily_double, dict_iadd, dict_isub. intros Hrun.
  repeat case_match; simplify_eq/=; by split_and!.
Qed.

Lemma handle_register_layout u chat g g' out :
  handle_register u chat g = Ok (g', out) → same_layout g g'.
Proof.
  unfold handle_register. intros Hrun.
  repeat case_match; simplify_eq/=; by split_and!.
Qed.

Lemma start_final_jeopardy_layout draw inbox g g' out :
  start_final_jeopardy draw inbox g = Ok (g', out) → same_layout g g'.
Proof.
  unfold start_final_jeopardy. intros Hrun.
  destruct (final_registered (state g)) as [|uid uids].
  { injection Hrun as <- _. apply same_layout_refl. }
  destruct (random_choice draw (questions g)) as [final_q|]; [|done].
  destruct (settle_final_replies _ _ _ _) as [[sc out0]|]; [|done].
  simpl in Hrun. injection Hrun as <- _. by split_and!.
Qed.

(** What an event that is neither a start nor a timeout does to the
    layout. *)
Lemma step_layout e w w' :
  step e w = Ok w' →
  match e with
  | startjeopardy _ _ | timeout_fires _ => True
  | _ => same_layout (game w) (game w')
  end.
Proof.
  intros Hstep. destruct e; simpl in Hstep; [done| | | | | | | |done].
  - destruct (handle_choose_question _ _ _ _ _ _) as [[g' out]|] eqn:E; [|done].
    injection Hstep as <-. by eapply handle_choose_question_layout.
  - destruct (handle_buzz _ _ _ _) as [[g' out]|] eqn:E; [|done].
    injection Hstep as <-. by eapply handle_buzz_layout.
  - destruct (handle_answer _ _ _ _ _) as [[g' out]|] eqn:E; [|done].
    injection Hstep as <-. by eapply handle_answer_layout.
  - destruct (handle_daily_double _ _ _ _) as [[g' out]|] eqn:E; [|done].
    injection Hstep as <-. by eapply handle_daily_double_layout.
  - injection Hstep as <-. apply same_layout_refl.
  - destruct (handle_register _ _ _) as [[g' out]|] eqn:E; [|done].
    injection Hstep as <-. by eapply handle_register_layout.
  - destruct (start_final_jeopardy _ _ _) as [[g' out]|] eqn:E; [|done].
    injection Hstep as <-. by eapply start_final_jeopardy_layout.
Qed.

Lemma buzz_timeout_board q g :
  let g' := (buzz_timeout q g).1 in
  questions g' = questions g
  ∧ round (state g') = round (state g)
  ∧ categories (state g') = categories (state g)
  ∧ daily_double_used (state g') = daily_double_used (state g)
  ∧ (board (state g') = board (state g)
     ∨ (q ∈ board (state g)
        ∧ board (state g') = list_remove q (board (state g)))).
Proof.
  unfold buzz_timeout, py_in.
  destruct (_ && _); simpl; [|by split_and!; try left].
  case_bool_decide; simpl; split_and!; try done; [by right|by left].
Qed.

Lemma handle_start_jeopardy_layout rng chat g g' out :
  handle_start_jeopardy rng chat g = Ok (g', out) →
  questions g' = questions g
  ∧ daily_double_used (state g') = daily_double_used (state g)
  ∧ (g' = g
     ∨ (round (state g') = 1
        ∧ ∀ q, q ∈ board (state g') →
               q ∈ questions g ∧ category_id q ∈ categories (state g'))).
Proof.
  unfold handle_start_jeopardy. intros Hrun.
  destruct (running (state g)); simpl in Hrun.
  { injection Hrun as <- _. split_and!; [done..|by left]. }
  destruct (setup_board rng _) as [g2|] eqn:Hsetup; [|done].
  simpl in Hrun. injection Hrun as <- _.
  destruct (setup_board_sound rng _ g2 Hsetup) as (Hqs & Hcats & Htiles).
  rewrite setup_board_unfold in Hsetup.
  destruct (_ <? 6)%nat; [done|]. injection Hsetup as <-.
  split_and!; [done..|]. right. split; [done|].
  intros q Hq. destruct (Htiles q Hq) as [? ?]. split; [done|by rewrite Hcats].
Qed.

End layout_facts.

(** ** What every run keeps of the layout *)

Section layout_runs.
Context `{PyText}.

Lemma step_layout_ok e w w' :
  step e w = Ok w' →
  layout_ok (game w) →
  questions (game w') = questions (game w) ∧ layout_ok (game w').
Proof.
  intros Hstep [Hround Htiles].
  destruct e; try (pose proof (step_layout _ _ _ Hstep) as Hsame;
                   simpl in Hsame;
                   destruct Hsame as (Hqs & Hr & Hc & Hb & _);
                   split; [done|]; split; [congruence|];
                   rewrite Hb, Hc, Hqs; exact Htiles).
  - simpl in Hstep.
    destruct (handle_start_jeopardy _ _ _) as [[g' out]|] eqn:E; [|done].
    injection Hstep as <-. simpl.
    destruct (handle_start_jeopardy_layout _ _ _ _ _ E)
      as (Hqs & _ & [->|[Hr Ht]]); [done|].
    split; [done|]. split; [done|]. intros q Hq. rewrite Hqs. by apply Ht.
  - simpl in Hstep. destruct (py_in _ _); injection Hstep as <-; [|done].
    simpl. destruct (buzz_timeout_board question_obj (game w))
      as (Hqs & Hr & Hc & _ & Hb).
    split; [done|]. split; [congruence|]. intros q Hq. rewrite Hqs, Hc.
    apply Htiles. destruct Hb as [Hb|[_ Hb]]; rewrite Hb in Hq; [done|].
    by apply list_remove_subset in Hq.
Qed.

Lemma run_layout_ok es w w' :
  run es w = Ok w' →
  layout_ok (game w) →
  questions (game w') = questions (game w) ∧ layout_ok (game w').
Proof.
  revert w. induction es as [|e es IH]; intros w Hrun Hok; simpl in Hrun.
  - by injection Hrun as <-.
  - destruct (step e w) as [w1|] eqn:Hstep; [|done]. simpl in Hrun.
    destruct (step_layout_ok e w w1 Hstep Hok) as [Hqs Hok1].
    destruct (IH w1 Hrun Hok1) as [Hqs' Hok']. split; [congruence|done].
Qed.

Lemma boot_layout_ok qs cats : layout_ok (game (boot qs cats)).
Proof. split; [done|]. intros q Hq. by apply elem_of_nil in Hq. Qed.

(** In every state that a run of the bot reaches, each tile of the board
    is a question of the corpus and its category is one of the chosen
    categories of the game. *)
Theorem board_tiles_come_from_the_corpus es qs cats w :
  run es (boot qs cats) = Ok w →
  ∀ q, q ∈ board (state (game w)) →
       q ∈ qs ∧ category_id q ∈ categories (state (game w)).
Proof.
  intros Hrun q Hq.
  destruct (run_layout_ok es _ w Hrun (boot_layout_ok qs cats)) as [Hqs [_ Ht]].
  simpl in Hqs. rewrite <- Hqs. by apply Ht.
Qed.

(** No run of the bot ever leaves round 1, so the cap of a Daily Double
    wager is always 1000: the wager scored is
    [max(1, min(wager, max(score, 1000)))]. *)
Theorem round_is_always_one es qs cats w :
  run es (boot qs cats) = Ok w →
  round (state (game w)) = 1
  ∧ ∀ wager score,
      clamp_wager wager score (round (state (game w)))
      = 1 `max` (wager `min` (score `max` 1000)).
Proof.
  intros Hrun.
  destruct (run_layout_ok es _ w Hrun (boot_layout_ok qs cats)) as [_ [Hr _]].
  split; [done|]. intros wager score. by rewrite Hr.
Qed.

(** The board changes only when a game starts and when a sleeping
    timeout thread wakes up and removes its own tile: no command handler
    takes a tile off the board. *)
Theorem only_the_timeout_removes_tiles e w w' :
  step e w = Ok w' →
  board (state (game w')) = board (state (game w))
  ∨ (∃ rng chat, e = startjeopardy rng chat)
  ∨ (∃ q, e = timeout_fires q
          ∧ q ∈ sleeping w
          ∧ q ∈ board (state (game w))
          ∧ board (state (game w')) = list_remove q (board (state (game w)))).
Proof.
  intros Hstep.
  destruct e; try (pose proof (step_layout _ _ _ Hstep) as Hsame;
                   simpl in Hsame; left; apply Hsame).
  - right; left. by do 2 eexists.
  - simpl in Hstep. unfold py_in in Hstep.
    case_bool_decide as Hsleep; injection Hstep as <-; [|by left]. simpl.
    destruct (buzz_timeout_board question_obj (game w))
      as (_ & _ & _ & _ & [Hb|[Hin Hb]]); [by left|].
    right; right. by exists question_obj.
Qed.

Lemma step_daily_double_used e w w' :
  step e w = Ok w' →
  daily_double_used (state (game w)) ⊆ daily_double_used (state (game w')).
Proof.
  intros Hstep.
  destruct e; try (pose proof (step_layout _ _ _ Hstep) as Hsame;
                   simpl in Hsame; apply Hsame).
  - simpl in Hstep.
    destruct (handle_start_jeopardy _ _ _) as [[g' out]|] eqn:E; [|done].
    injection Hstep as <-. simpl.
    destruct (handle_start_jeopardy_layout _ _ _ _ _ E) as (_ & -> & _). done.
  - simpl in Hstep. destruct (py_in _ _); injection Hstep as <-; [|done].
    simpl. destruct (buzz_timeout_board question_obj (game w))
      as (_ & _ & _ & -> & _). done.
Qed.

Lemma run_daily_double_used es w w' :
  run es w = Ok w' →
  daily_double_used (state (game w)) ⊆ daily_double_used (state (game w')).
Proof.
  revert w. induction es as [|e es IH]; intros w Hrun; simpl in Hrun.
  - by injection Hrun as <-.
  - destruct (step e w) as [w1|] eqn:Hstep; [|done]. simpl in Hrun.
    etrans; [by eapply step_daily_double_used|by apply IH].
Qed.

(** A coordinate is offered as a Daily Double at most once in the life
    of the bot, new games included: once the pair of a tile is in
    [daily_double_used], it stays there through any run, and a choice
    that returns with this tile as the current question either refused
    and changed nothing, or posted the tile as an ordinary question. *)
Theorem daily_double_at_most_once es w w' command command2 u chat rnd g' out q :
  coordinate q ∈ daily_double_used (state (game w)) →
  run es w = Ok w' →
  handle_choose_question command command2 u chat rnd (game w') = Ok (g', out) →
  current_question (state g') = Some q →
  coordinate q ∈ daily_double_used (state (game w'))
  ∧ (g' = game w' ∨ (g', out) = post_question q (game w')).
Proof.
  intros Hused Hrun Hchoose Hq.
  pose proof (run_daily_double_used es w w' Hrun) as Hmono.
  split; [by apply Hmono|].
  destruct (handle_choose_question_cases command command2 u chat rnd (game w'))
    as (g2 & out2 & Hrun2 & Hcases).
  rewrite Hchoose in Hrun2. injection Hrun2 as <- <-.
  destruct Hcases as [[-> _]|[(q' & _ & Hfresh & _ & -> & _)|(q' & _ & _ & _ & Hpost)]].
  - by left.
  - simpl in Hq. injection Hq as ->. destruct Hfresh. by apply Hmono.
  - right. injection Hpost as -> ->. simpl in Hq. by injection Hq as ->.
Qed.

End layout_runs.

(** ** Whose score a step can change *)

Section score_owner.
Context `{PyText}.

Lemma handle_answer_other_scores command2 u chat now g g' out k :
  handle_answer command2 u chat now g = Ok (g', out) →
  k ≠ py_str u →
  dict_lookup (scores (state g')) k = dict_lookup (scores (state g)) k.
Proof.
  unfold handle_answer, dict_iadd, dict_isub. intros Hrun Hk.
  repeat case_match; simplify_eq/=; try done.
  all: by rewrite dict_lookup_set_ne, dict_lookup_setdefault_ne.
Qed.

Lemma handle_daily_double_other_scores parts u chat g g' out k :
  handle_daily_double parts u chat g = Ok (g', out) →
  k ≠ py_str u →
  dict_lookup (scores (state g')) k = dict_lookup (scores (state g)) k.
Proof.
  unfold handle_daily_double, dict_iadd, dict_isub. intros Hrun Hk.
  repeat case_match; simplify_eq/=; try done.
  all: by rewrite dict_lookup_set_ne, dict_lookup_setdefault_ne.
Qed.

Lemma handle_choose_question_scores command command2 u chat rnd g g' out :
  handle_choose_question command command2 u chat rnd g = Ok (g', out) →
  scores (state g') = scores (state g).
Proof.
  intros Hrun.
  destruct (handle_choose_question_cases command command2 u chat rnd g)
    as (g2 & out2 & Hrun2 & Hcases).
  rewrite Hrun in Hrun2. injection Hrun2 as <- <-.
  destruct Hcases as [[-> _]|[(q & _ & _ & _ & -> & _)|(q & _ & _ & _ & Hpost)]];
    [done..|]. by injection Hpost as -> _.
Qed.

(** The score of a user changes only through that user's own [answer]
    or [dailydouble], through Final Jeopardy, or through the start of a
    game: no other event, and nobody else's answer, touches it. *)
Theorem a_score_changes_only_by_its_owner e w w' v :
  step e w = Ok w' →
  dict_lookup (scores (state (game w'))) (py_str v)
  ≠ dict_lookup (scores (state (game w))) (py_str v) →
  (∃ rng chat, e = startjeopardy rng chat)
  ∨ (∃ command2 chat now, e = answer command2 v chat now)
  ∨ (∃ parts chat, e = dailydouble parts v chat)
  ∨ (∃ draw inbox, e = final_jeopardy draw inbox).
Proof.
  intros Hstep Hchanged. destruct e; simpl in Hstep.
  - left. by do 2 eexists.
  - destruct (handle_choose_question _ _ _ _ _ _) as [[g' out]|] eqn:E; [|done].
    injection Hstep as <-. simpl in Hchanged.
    by rewrite (handle_choose_question_scores _ _ _ _ _ _ _ _ E) in Hchanged.
  - unfold handle_buzz in Hstep.
    destruct (_ && _); simpl in Hstep; injection Hstep as <-; done.
  - destruct (decide (user_id = v)) as [->|Hne].
    { right; left. by do 3 eexists. }
    destruct (handle_answer _ _ _ _ _) as [[g' out]|] eqn:E; [|done].
    injection Hstep as <-. simpl in Hchanged.
    rewrite (handle_answer_other_scores _ _ _ _ _ _ _ _ E) in Hchanged; [done|].
    intros Heq. apply Hne. by apply (inj pretty) in Heq.
  - destruct (decide (user_id = v)) as [->|Hne].
    { right; right; left. by do 2 eexists. }
    destruct (handle_daily_double _ _ _ _) as [[g' out]|] eqn:E; [|done].
    injection Hstep as <-. simpl in Hchanged.
    rewrite (handle_daily_double_other_scores _ _ _ _ _ _ _ E) in Hchanged; [done|].
    intros Heq. apply Hne. by apply (inj pretty) in Heq.
  - injection Hstep as <-. done.
  - unfold handle_register in Hstep.
    repeat case_match; simpl in Hstep; injection Hstep as <-; done.
  - right; right; right. by do 2 eexists.
  - destruct (py_in _ _); injection Hstep as <-; [|done]. simpl in Hchanged.
    unfold buzz_timeout in Hchanged. by repeat case_match.
Qed.

End score_owner.

(** ** Answers, buzzes and timeouts in sequence *)

Lemma list_remove_other `{EqDecision A} (x y : A) (l : list A) :
  y ≠ x → y ∈ l → y ∈ list_remove x l.
Proof.
  intros Hne. induction l as [|z l IH]; simpl; [done|].
  destruct (decide (x = z)) as [->|Hz].
  - by intros [?|?]%elem_of_cons.
  - intros [->|Hy]%elem_of_cons; [by left|]. right. by apply IH.
Qed.

Section sequences.
Context `{PyText}.

Lemma handle_answer_without_question command2 u chat now g :
  buzzed_in (state g) = Some u →
  (now - buzzed_in_time (state g) <= 20)%Q →
  current_question (state g) = None →
  handle_answer command2 u chat now g = Raise TypeError.
Proof.
  intros Hu Htime Hq. unfold handle_answer.
  rewrite bool_decide_eq_true_2 by done. simpl.
  apply Qgtb_false in Htime. by rewrite Htime, Hq.
Qed.

(** After a correct answer its author is still buzzed in and no question
    is active: a second [answer] from the same user within twenty
    seconds of the buzz subscripts [None] and raises [TypeError], which
    nothing catches. *)
Theorem second_answer_after_a_correct_one_raises
    command2 text u chat chat' now now' g q :
  buzzed_in (state g) = Some u →
  (now - buzzed_in_time (state g) <= 20)%Q →
  current_question (state g) = Some q →
  is_correct (drop 1 command2) q →
  (now' - buzzed_in_time (state g) <= 20)%Q →
  ∃ g1 out1,
    handle_answer command2 u chat now g = Ok (g1, out1)
    ∧ handle_answer text u chat' now' g1 = Raise TypeError.
Proof.
  intros Hu Htime Hq Hok Htime'.
  rewrite (handle_answer_correct _ _ _ _ _ q) by done.
  do 2 eexists. split; [reflexivity|].
  by apply handle_answer_without_question.
Qed.

(** A wrong answer inside the twenty seconds costs its author exactly
    the points of the tile, with no floor at zero, and clears the lock,
    while the question stays active and its tile stays on the board: the
    next buzz, from anyone and at any time, is accepted. *)
Theorem wrong_answer_frees_the_question command2 u chat now g q :
  buzzed_in (state g) = Some u →
  (now - buzzed_in_time (state g) <= 20)%Q →
  current_question (state g) = Some q →
  ¬ is_correct (drop 1 command2) q →
  ∃ g1 out1,
    handle_answer command2 u chat now g = Ok (g1, out1)
    ∧ dict_lookup (scores (state g1)) (py_str u)
      = Some (dict_get (scores (state g)) (py_str u) 0 - points q)
    ∧ buzzed_in (state g1) = None
    ∧ current_question (state g1) = Some q
    ∧ board (state g1) = board (state g)
    ∧ ∀ v chatv nowv, ∃ g2,
        handle_buzz v chatv nowv g1 = Ok (g2, [buzz_notice v])
        ∧ buzzed_in (state g2) = Some v
        ∧ current_question (state g2) = Some q.
Proof.
  intros Hu Htime Hq Hbad.
  rewrite (handle_answer_incorrect _ _ _ _ _ q) by done.
  do 2 eexists. split; [reflexivity|]. simpl.
  split_and!; [by rewrite dict_lookup_set_eq|done..|].
  intros v chatv nowv. rewrite handle_buzz_accepted; simpl; [|done|by eexists].
  by eexists.
Qed.

(** Whatever [handle_register] did, the same user registering again is
    answered with one notice and changes nothing; and the handler adds
    a user to the registrations only at the end of the list, only once,
    and only with a score of at least 1. *)
Theorem register_is_idempotent u chat chat' g g1 out1 :
  handle_register u chat g = Ok (g1, out1) →
  (∃ notice, handle_register u chat' g1 = Ok (g1, [send_message notice chat']))
  ∧ scores (state g1) = scores (state g)
  ∧ (final_registered (state g1) = final_registered (state g)
     ∨ (final_registered (state g1) = final_registered (state g) ++ [py_str u]
        ∧ (py_str u ∉ final_registered (state g))
        ∧ 1 ≤ dict_get (scores (state g)) (py_str u) 0)).
Proof.
  unfold handle_register, py_in. intros Hrun.
  destruct (Z.ltb_spec (dict_get (scores (state g)) (py_str u) 0) 1) as [Hlow|Hhigh].
  - injection Hrun as <- _. split_and!; [|done|by left].
    destruct (Z.ltb_spec (dict_get (scores (state g)) (py_str u) 0) 1); [|lia].
    by eexists.
  - case_bool_decide as Hin; simpl in Hrun; injection Hrun as <- _; simpl.
    + split_and!; [|done|by left].
      destruct (Z.ltb_spec (dict_get (scores (state g)) (py_str u) 0) 1); [lia|].
      rewrite bool_decide_eq_true_2 by done. by eexists.
    + split_and!; [|done|by right].
      destruct (Z.ltb_spec (dict_get (scores (state g)) (py_str u) 0) 1); [lia|].
      rewrite bool_decide_eq_true_2; [by eexists|].
      apply elem_of_app. right. by apply list_elem_of_singleton.
Qed.

Lemma buzz_timeout_fires q g :
  truthy (buzzed_in (state g)) = false →
  buzz_open (state g) = true →
  buzz_timeout q g
  = let s1 := set_buzz_open false (state g) in
    let s2 := if py_in q (board s1)
              then set_board (list_remove q (board s1)) s1 else s1 in
    let g3 := with_state g (set_current_question None s2) in
    (g3,
     [send_message
        ("⏱ Time's up! No one buzzed in. The correct answer was: "
         +:+ py_join ", " (answers q)) MAIN_BUBBLE_ID;
      send_message (display_board g3) MAIN_BUBBLE_ID]).
Proof. intros Hfree Hopen. unfold buzz_timeout. by rewrite Hfree, Hopen. Qed.

Lemma buzz_timeout_idle q g :
  truthy (buzzed_in (state g)) = true ∨ buzz_open (state g) = false →
  buzz_timeout q g = (g, []).
Proof.
  intros Hcase. unfold buzz_timeout.
  destruct Hcase as [->| ->]; [done|]. by rewrite andb_false_r.
Qed.

Lemma buzz_timeout_takes_the_tile q g :
  truthy (buzzed_in (state g)) = false →
  buzz_open (state g) = true →
  q ∈ board (state g) →
  buzz_timeout q g
  = let g3 := with_state g
                (set_current_question None
                   (set_board (list_remove q (board (state g)))
                      (set_buzz_open false (state g)))) in
    (g3,
     [send_message
        ("⏱ Time's up! No one buzzed in. The correct answer was: "
         +:+ py_join ", " (answers q)) MAIN_BUBBLE_ID;
      send_message (display_board g3) MAIN_BUBBLE_ID]).
Proof.
  intros Hfree Hopen Hq. rewrite buzz_timeout_fires by done. cbv zeta.
  replace (py_in q (board (set_buzz_open false (state g)))) with true; [done|].
  symmetry. by apply bool_decide_eq_true_2.
Qed.

(** The timeout thread of a question does not look at which question is
    active. When a second question is posted before the thread of the
    first wakes up, the thread reveals the answers of the first question,
    takes the first tile off the board and clears the second question,
    whose tile stays on the board; the thread of the second question
    then finds the window closed and does nothing. *)
Theorem stale_timeout_clears_the_next_question q1 q2 g :
  truthy (buzzed_in (state g)) = false →
  q1 ≠ q2 →
  q1 ∈ board (state g) →
  q2 ∈ board (state g) →
  let g2 := (post_question q2 (post_question q1 g).1).1 in
  let g3 := (buzz_timeout q1 g2).1 in
  current_question (state g2) = Some q2
  ∧ current_question (state g3) = None
  ∧ board (state g3) = list_remove q1 (board (state g))
  ∧ q2 ∈ board (state g3)
  ∧ (buzz_timeout q1 g2).2
    = [send_message
         ("⏱ Time's up! No one buzzed in. The correct answer was: "
          +:+ py_join ", " (answers q1)) MAIN_BUBBLE_ID;
       send_message (display_board g3) MAIN_BUBBLE_ID]
  ∧ buzz_timeout q2 g3 = (g3, []).
Proof.
  intros Hfree Hne Hq1 Hq2 g2 g3.
  pose proof (buzz_timeout_takes_the_tile q1 g2 Hfree eq_refl Hq1) as Hfire.
  unfold g3. rewrite Hfire. cbv zeta. cbn [fst snd].
  split_and!.
  - reflexivity.
  - reflexivity.
  - reflexivity.
  - by apply list_remove_other.
  - reflexivity.
  - apply buzz_timeout_idle. right. reflexivity.
Qed.

(** An accepted buzz stops the timeout thread, which tests the truth
    value of [buzzed_in]: after the buzz of a user whose id is not 0 the
    thread of any question does nothing; after the buzz of user 0 it
    still fires, and clears the question while user 0 stays buzzed in. *)
Theorem buzz_stops_the_timeout_unless_user_zero u chat now g q :
  buzzed_in (state g) = None →
  is_Some (current_question (state g)) →
  buzz_open (state g) = true →
  ∃ g1,
    handle_buzz u chat now g = Ok (g1, [buzz_notice u])
    ∧ (u ≠ 0 → buzz_timeout q g1 = (g1, []))
    ∧ (u = 0 →
       current_question (state (buzz_timeout q g1).1) = None
       ∧ buzz_open (state (buzz_timeout q g1).1) = false
       ∧ buzzed_in (state (buzz_timeout q g1).1) = Some 0).
Proof.
  intros Hfree Hq Hopen. rewrite handle_buzz_accepted by done.
  eexists. split; [reflexivity|]. split.
  - intros Hu. apply buzz_timeout_idle. left. simpl.
    by apply negb_true_iff, Z.eqb_neq.
  - intros ->. rewrite buzz_timeout_fires by done. simpl.
    by destruct (py_in q _).
Qed.

(** When the timeout thread of a tile fires on a board without repeated
    tiles, the tile is gone from the board and all the others stay, no
    question is active, the window is closed, and no choice can make
    that tile the current question again. *)
Theorem timed_out_tile_cannot_be_chosen q g :
  truthy (buzzed_in (state g)) = false →
  buzz_open (state g) = true →
  NoDup (board (state g)) →
  let g' := (buzz_timeout q g).1 in
  (q ∉ board (state g'))
  ∧ (∀ x, x ≠ q → x ∈ board (state g') ↔ x ∈ board (state g))
  ∧ current_question (state g') = None
  ∧ buzz_open (state g') = false
  ∧ ∀ command command2 u chat rnd g'' out,
      handle_choose_question command command2 u chat rnd g' = Ok (g'', out) →
      current_question (state g'') ≠ Some q.
Proof.
  intros Hfree Hopen Hnodup g'.
  assert (Hboard : board (state g')
                   = if py_in q (board (state g))
                     then list_remove q (board (state g)) else board (state g)).
  { unfold g'. rewrite buzz_timeout_fires by done. simpl.
    by destruct (py_in q _). }
  assert (Hgone : q ∉ board (state g')).
  { rewrite Hboard. unfold py_in. case_bool_decide; [|done].
    by apply list_remove_NoDup. }
  assert (Hidle : current_question (state g') = None).
  { unfold g'. by rewrite buzz_timeout_fires. }
  split_and!; [done| |done| |].
  - intros x Hx. rewrite Hboard. unfold py_in. case_bool_decide; [|done].
    split; [apply list_remove_subset|by apply list_remove_other].
  - unfold g'. rewrite buzz_timeout_fires by done. simpl.
    by destruct (py_in q _).
  - intros command command2 u chat rnd g'' out Hchoose.
    destruct (handle_choose_question_cases command command2 u chat rnd g')
      as (g2 & out2 & Hrun2 & Hcases).
    rewrite Hchoose in Hrun2. injection Hrun2 as <- <-.
    destruct Hcases
      as [[-> _]|[(q' & Hq' & _ & _ & -> & _)|(q' & Hq' & _ & _ & Hpost)]].
    + by rewrite Hidle.
    + simpl. intros [= ->]. done.
    + injection Hpost as -> _. simpl. intros [= ->]. done.
Qed.

End sequences.

(** ** [handle_choose_question] *)

Lemma find_first {A} (f : A → bool) (l : list A) (x : A) :
  List.find f l = Some x →
  ∃ before after,
    l = before ++ x :: after ∧ f x = true ∧ ∀ y, y ∈ before → f y = false.
Proof.
  induction l as [|z l IH]; simpl; [done|].
  destruct (f z) eqn:Hz.
  - intros [= ->]. exists [], l. split_and!; [done..|].
    intros y Hy. by apply elem_of_nil in Hy.
  - intros Hfind. destruct (IH Hfind) as (before & after & -> & Hx & Hbefore).
    exists (z :: before), after. split_and!; [done..|].
    intros y [->|Hy]%elem_of_cons; [done|by apply Hbefore].
Qed.

Lemma find_none_iff {A} (f : A → bool) (l : list A) :
  List.find f l = None ↔ ∀ y, y ∈ l → f y = false.
Proof.
  induction l as [|z l IH]; simpl.
  - split; [intros _ y Hy; by apply elem_of_nil in Hy|done].
  - destruct (f z) eqn:Hz.
    + split; [done|]. intros Hall. rewrite Hall in Hz; [done|by left].
    + rewrite IH. split.
      * intros Hall y [->|Hy]%elem_of_cons; [done|by apply Hall].
      * intros Hall y Hy. apply Hall. by right.
Qed.

Section choose_props.
Context `{PyText}.

(** [handle_choose_question] never raises. Either it refuses, with one
    notice to the caller and no change of state, or it selects the first
    tile of the board at the requested coordinate, whose category is one
    of the chosen categories, and makes it the current question without
    touching the board, the scores or the lock. It selects whenever a
    game is running, the command has three words, its second word is an
    integer, the category is a chosen one and the board has a tile
    there: that a question is already active or that somebody is buzzed
    in refuses nothing. *)
Theorem choose_refuses_or_selects_the_first_match command command2 u chat rnd g :
  let cat := py_join " " (drop 2 command2) in
  ∃ g' out,
    handle_choose_question command command2 u chat rnd g = Ok (g', out)
    ∧ ((g' = g ∧ ∃ text, out = [send_message text chat])
       ∨ ∃ q before after,
           coordinate q = (cat, points q)
           ∧ command !! 1%nat ≫= py_int = Some (points q)
           ∧ cat ∈ categories (state g)
           ∧ board (state g) = before ++ q :: after
           ∧ (∀ t, t ∈ before → coordinate t ≠ coordinate q)
           ∧ current_question (state g') = Some q
           ∧ board (state g') = board (state g)
           ∧ scores (state g') = scores (state g)
           ∧ buzzed_in (state g') = buzzed_in (state g))
    ∧ (running (state g) = true →
       (3 ≤ length command)%nat →
       ∀ pts t,
         command !! 1%nat ≫= py_int = Some pts →
         cat ∈ categories (state g) →
         t ∈ board (state g) →
         coordinate t = (cat, pts) →
         ∃ q, current_question (state g') = Some q ∧ coordinate q = (cat, pts)).
Proof.
  intros cat. unfold handle_choose_question. fold cat.
  destruct (running (state g)) eqn:Hrun; simpl.
  2: { do 2 eexists. split; [reflexivity|]. split; [left; eauto|done]. }
  destruct (Nat.ltb_spec (length command) 3) as [Hshort|Hlen].
  { do 2 eexists. split; [reflexivity|]. split; [left; eauto|]. intros; lia. }
  destruct (command !! 1%nat ≫= py_int) as [pts|] eqn:Hint.
  2: { do 2 eexists. split; [reflexivity|]. split; [left; eauto|]. by intros. }
  unfold py_in. case_bool_decide as Hcat; simpl.
  2: { do 2 eexists. split; [reflexivity|]. split; [left; eauto|]. by intros. }
  destruct (List.find _ (board (state g))) as [q|] eqn:Hfind.
  2: { do 2 eexists. split; [reflexivity|]. split; [left; eauto|].
       intros _ _ pts' t [= <-] _ Ht [= Hc Hp].
       rewrite find_none_iff in Hfind. specialize (Hfind t Ht). simpl in Hfind.
       by rewrite !bool_decide_eq_true_2 in Hfind. }
  destruct (find_first _ _ _ Hfind) as (before & after & Hboard & Hq & Hbefore).
  simpl in Hq. apply andb_prop in Hq as [Hc Hp].
  apply bool_decide_eq_true in Hc, Hp.
  assert (Hfirst : ∀ t, t ∈ before → coordinate t ≠ coordinate q).
  { intros t Ht [= Htc Htp]. specialize (Hbefore t Ht). simpl in Hbefore.
    rewrite !bool_decide_eq_true_2 in Hbefore; [done|congruence..]. }
  assert (Hcoord : coordinate q = (cat, points q)) by (unfold coordinate; by rewrite Hc).
  destruct (Qltb rnd (1 # 10) && _); do 2 eexists.
  - split; [reflexivity|]. split.
    + right. exists q, before, after. simpl. by subst pts.
    + intros _ _ pts' t [= <-] _ _ _. exists q. simpl. by subst pts.
  - split; [unfold post_question; reflexivity|]. split.
    + right. exists q, before, after. simpl. by subst pts.
    + intros _ _ pts' t [= <-] _ _ _. exists q. simpl. by subst pts.
Qed.

End choose_props.

(** ** The ranking of [handle_score] and of the final leaderboard *)

Section stable_sort.
Context {A : Type} (key : A → Z) (v : Z).

Lemma filter_key_none (l : list A) :
  Forall (λ y, v < key y) l → filter (λ y, key y = v) l = [].
Proof.
  induction 1 as [|y l Hy Hl IH]; [done|].
  rewrite filter_cons_False by lia. done.
Qed.

Lemma filter_insert_by x l :
  StronglySorted (ascending key) l →
  filter (λ y, key y = v) (insert_by key x l)
  = filter (λ y, key y = v) l ++ (if decide (key x = v) then [x] else []).
Proof.
  induction 1 as [|y l Hl IH Hy]; simpl.
  - rewrite filter_cons, filter_nil. by destruct (decide (key x = v)).
  - destruct (Z.ltb_spec (key x) (key y)) as [Hlt|Hge].
    + rewrite (filter_cons _ x). destruct (decide (key x = v)) as [Hx|Hx].
      * rewrite filter_key_none; [done|]. constructor; [lia|].
        eapply Forall_impl; [exact Hy|]. unfold ascending. intros; lia.
      * by rewrite app_nil_r.
    + rewrite !(filter_cons _ y), IH.
      by destruct (decide (key y = v)).
Qed.

Lemma filter_foldl_insert_by acc l :
  StronglySorted (ascending key) acc →
  filter (λ y, key y = v) (foldl (λ acc x, insert_by key x acc) acc l)
  = filter (λ y, key y = v) acc ++ filter (λ y, key y = v) l.
Proof.
  revert acc. induction l as [|x l IH]; intros acc Hacc; simpl.
  - by rewrite app_nil_r.
  - rewrite IH by by apply insert_by_sorted.
    rewrite filter_insert_by by done. rewrite (filter_cons _ x).
    rewrite <- (assoc_L (++)). by destruct (decide (key x = v)).
Qed.

Lemma filter_sorted_by_reverse l :
  filter (λ y, key y = v) (sorted_by_reverse key l) = filter (λ y, key y = v) l.
Proof.
  unfold sorted_by_reverse, sorted_by.
  rewrite filter_reverse, filter_foldl_insert_by by constructor.
  rewrite filter_nil, app_nil_l, filter_reverse. apply reverse_involutive.
Qed.

End stable_sort.

(** The ranking lists every entry of the scores once, by descending
    score, and users with equal scores in the order in which their
    entries were first written to [scores]. *)
Theorem ranking_is_descending_and_stable (d : dict Z) :
  ranking d ≡ₚ d
  ∧ StronglySorted (descending snd) (ranking d)
  ∧ ∀ v, filter (λ e, e.2 = v) (ranking d) = filter (λ e, e.2 = v) d.
Proof.
  split_and!.
  - apply sorted_by_reverse_Permutation.
  - apply sorted_by_reverse_sorted.
  - intros v. apply filter_sorted_by_reverse.
Qed.

(** ** More on Final Jeopardy *)

Section final_props.
Context `{PyText}.

Lemma score_after_reply_bounds final_q msg old :
  0 ≤ old → 0 ≤ score_after_reply final_q msg old ≤ 2 * old.
Proof.
  intros Hold. unfold score_after_reply.
  destruct (reply_wager msg) as [w0|] eqn:Hreply; [|lia].
  apply reply_wager_Some in Hreply as (_ & _ & _ & Hpos).
  unfold settled_score. repeat case_decide; lia.
Qed.

(** In any state that a run of the bot reaches, a Final Jeopardy that
    returns leaves the entries of [scores] in place and in order, does
    not touch the score of a user who is not registered, and takes no
    score that was zero or more below zero or above its double; with
    nobody registered it changes nothing at all, [running] included. *)
Theorem final_jeopardy_touches_only_the_registered
    es qs cats w draw inbox g' out :
  run es (boot qs cats) = Ok w →
  start_final_jeopardy draw inbox (game w) = Ok (g', out) →
  (scores (state g')).*1 = (scores (state (game w))).*1
  ∧ board (state g') = board (state (game w))
  ∧ final_registered (state g') = final_registered (state (game w))
  ∧ (final_registered (state (game w)) = [] → g' = game w)
  ∧ ∀ uid,
      let old := dict_get (scores (state (game w))) uid 0 in
      let new := dict_get (scores (state g')) uid 0 in
      (uid ∉ final_registered (state (game w)) → new = old)
      ∧ (0 ≤ old → 0 ≤ new ≤ 2 * old).
Proof.
  intros Hrun Hfinal.
  destruct (run_registered_ok es _ w Hrun (boot_registered_ok qs cats))
    as (_ & _ & Hok).
  destruct (final_registered (state (game w))) as [|uid0 uids] eqn:Hreg.
  { unfold start_final_jeopardy in Hfinal. rewrite Hreg in Hfinal.
    injection Hfinal as <- _. rewrite Hreg. split_and!; [done..|].
    intros uid. split; [done|lia]. }
  destruct (random_choice draw (questions (game w))) as [final_q|] eqn:Hdraw.
  2: { unfold start_final_jeopardy in Hfinal. by rewrite Hreg, Hdraw in Hfinal. }
  destruct (start_final_jeopardy_spec draw inbox (game w) final_q)
    as (sc & out0 & Hfinal' & Hkeys & Hin & Hout); [by rewrite Hreg|done..|].
  rewrite Hfinal in Hfinal'. injection Hfinal' as -> _. simpl.
  rewrite Hreg in Hin, Hout.
  split_and!; [done..|]. intros uid. unfold dict_get.
  destruct (decide (uid ∈ uid0 :: uids)) as [Huid|Huid].
  - split; [done|]. rewrite Hin by done.
    destruct Hok as [_ Hhave]. rewrite Hreg in Hhave.
    destruct (Hhave uid Huid) as [old Hold]. rewrite Hold. simpl.
    apply score_after_reply_bounds.
  - rewrite Hout by done. split; [done|lia].
Qed.

End final_props.

(** ** [handle_start_jeopardy] *)

(** [handle_start_jeopardy] raises exactly when no game is running and
    the category corpus has fewer than six entries, with [ValueError].
    On a running game it refuses with one notice to the caller and no
    change. Otherwise it starts a game: running, round 1, no scores, no
    registrations, no active question, nobody buzzed in and no chooser,
    while [buzz_open] and [daily_double_used] stay as they were. *)
Theorem start_raises_only_on_a_small_corpus rng chat g :
  match handle_start_jeopardy rng chat g with
  | Raise e =>
      e = ValueError
      ∧ running (state g) = false
      ∧ (length (all_categories g) < 6)%nat
  | Ok (g', out) =>
      (running (state g) = true
       ∧ g' = g
       ∧ out = [send_message "A game is already running!" chat])
      ∨ (running (state g) = false
         ∧ (6 ≤ length (all_categories g))%nat
         ∧ running (state g') = true
         ∧ round (state g') = 1
         ∧ scores (state g') = []
         ∧ final_registered (state g') = []
         ∧ current_question (state g') = None
         ∧ buzzed_in (state g') = None
         ∧ current_chooser (state g') = None
         ∧ buzz_open (state g') = buzz_open (state g)
         ∧ daily_double_used (state g') = daily_double_used (state g)
         ∧ categories (state g') = sample_categories rng)
  end.
Proof.
  unfold handle_start_jeopardy.
  destruct (running (state g)); simpl; [by left|].
  rewrite setup_board_unfold. simpl.
  destruct (Nat.ltb_spec (length (all_categories g)) 6); simpl; [done|].
  right. by split_and!.
Qed.

(** ** [get_dm_or_create] *)

(** A DM is created at most once per user: whatever the first call did,
    a second call for the same user returns the same DM without calling
    [createDM] and leaves the rows as they are. The call does not touch
    the rows of other users, and rows with distinct users stay so. *)
Theorem get_dm_or_create_caches {D} (created : D) (user_id : Z)
    (stored_dms : list (Z * D)) :
  let '(dm, stored', _) := get_dm_or_create created user_id stored_dms in
  (∀ created', get_dm_or_create created' user_id stored' = (dm, stored', false))
  ∧ (∀ other, other ≠ user_id →
       filter (λ row, row.1 = other) stored'
       = filter (λ row, row.1 = other) stored_dms)
  ∧ (NoDup stored_dms.*1 → NoDup stored'.*1).
Proof.
  unfold get_dm_or_create.
  destruct (filter (λ row, row.1 = user_id) stored_dms) as [|row rest] eqn:Hrows.
  - split_and!.
    + intros created'. rewrite filter_app, Hrows, app_nil_l.
      rewrite filter_cons_True by done. done.
    + intros other Hother. rewrite filter_app.
      rewrite (filter_cons_False _ (user_id, created)) by (simpl; congruence).
      by rewrite filter_nil, app_nil_r.
    + intros Hnodup. rewrite fmap_app. apply NoDup_app. split_and!; [done| |].
      * intros u Hu Hs. apply list_elem_of_singleton in Hs as ->.
        apply list_elem_of_fmap in Hu as ([u' d] & Heq & Hin).
        simpl in Heq. subst u'.
        by eapply (filter_nil_not_elem_of _ _ (user_id, d)); [exact Hrows|..].
      * apply NoDup_singleton.
  - split_and!; [|done..]. intros created'. by rewrite Hrows.
Qed.

(** ** [check_for_commands] on ASCII text *)

Lemma ascii_lower_char_bang c : ascii_lower_char c = "!"%char → c = "!"%char.
Proof.
  destruct c as [[] [] [] [] [] [] [] []]; vm_compute; intros Hc;
    (reflexivity || discriminate Hc).
Qed.

Lemma ascii_lower_char_d c :
  ascii_lower_char c = "d"%char → c = "d"%char ∨ c = "D"%char.
Proof.
  destruct c as [[] [] [] [] [] [] [] []]; vm_compute; intros Hc;
    (by left) || (by right) || discriminate Hc.
Qed.

(** The first word that [ascii_split_go] returns starts with the word
    being read. *)
Lemma ascii_split_go_head s cur :
  cur ≠ "" → ∃ suffix rest, ascii_split_go cur s = (cur +:+ suffix) :: rest.
Proof.
  revert cur. induction s as [|c s IH]; intros cur Hcur; simpl.
  - rewrite decide_False by done. exists "", []. by rewrite string_app_empty_r.
  - destruct (ascii_is_space c).
    + rewrite decide_False by done. exists "". eexists.
      by rewrite string_app_empty_r.
    + destruct (IH (cur +:+ String c "")) as (suffix & rest & ->).
      { by destruct cur. }
      exists (String c "" +:+ suffix), rest. by rewrite string_app_assoc.
Qed.

Lemma string_prefix_cons a p b s :
  String.prefix (String a p) (String b s)
  = if ascii_dec a b then String.prefix p s else false.
Proof. reflexivity. Qed.

Lemma starts_with_dailydouble msg :
  py_startswith (ascii_lower msg) "!dailydouble" = true →
  ∃ c rest, msg = String "!" (String c rest) ∧ (c = "d"%char ∨ c = "D"%char).
Proof.
  unfold py_startswith.
  destruct msg as [|c0 [|c1 rest]]; cbn [ascii_lower].
  - done.
  - rewrite string_prefix_cons.
    by destruct (ascii_dec "!" (ascii_lower_char c0)).
  - rewrite !string_prefix_cons.
    destruct (ascii_dec "!" (ascii_lower_char c0)) as [H0|]; [|done].
    destruct (ascii_dec "d" (ascii_lower_char c1)) as [H1|]; [|done].
    intros _. symmetry in H0, H1.
    apply ascii_lower_char_bang in H0 as ->.
    apply ascii_lower_char_d in H1. by exists c1, rest.
Qed.

(** On ASCII text no [!dailydouble] message is ever scored: the
    dispatcher passes the command word as the first word, the handler
    reads it as the wager, and [int] rejects it. Whatever the message,
    the sender and the state, the sender gets one notice and the game
    is unchanged. *)
Theorem dailydouble_message_is_never_scored msg u env g :
  py_startswith (ascii_lower msg) "!dailydouble" = true →
  ∃ notice,
    @check_for_commands ascii_text msg u env g
    = Ok (g, [send_message notice (DM (py_str u))]).
Proof.
  intros Hstart.
  destruct (starts_with_dailydouble msg Hstart) as (c & rest & -> & Hc).
  assert (Hdispatch :
    @check_for_commands ascii_text (String "!" (String c rest)) u env g
    = @handle_daily_double ascii_text (ascii_split (String c rest)) u
        (DM (py_str u)) g).
  { unfold check_for_commands. simpl py_lower. simpl drop_first.
    unfold py_startswith in *. simpl py_split.
    destruct Hc as [-> | ->]; simpl in Hstart |- *; by rewrite Hstart. }
  rewrite Hdispatch. unfold ascii_split.
  assert (Hsplit : ascii_split_go "" (String c rest)
                   = ascii_split_go (String c "") rest)
    by (by destruct Hc as [-> | ->]).
  rewrite Hsplit.
  destruct (ascii_split_go_head rest (String c "")) as (suffix & tl & ->); [done|].
  unfold handle_daily_double.
  destruct (current_question (state g)); [|by eexists].
  destruct (length _ <? 2)%nat; [by eexists|].
  assert (Hint : ((String c "" +:+ suffix) :: tl) !! 0%nat ≫= @py_int ascii_text
                 = None)
    by (by destruct Hc as [-> | ->]).
  rewrite Hint. by eexists.
Qed.

(** ** The properties above on the small game *)

(** The board of the small game. *)
Lemma setup_board_tiles_from_corpus_witness :
  ∃ g',
    setup_board Demo.rng (init_game Demo.corpus Demo.corpus_categories) = Ok g'
    ∧ categories (state g') = Demo.corpus_categories
    ∧ ∀ q, q ∈ board (state g') →
           q ∈ Demo.corpus ∧ category_id q ∈ Demo.corpus_categories.
Proof.
  eexists. split; [vm_compute; reflexivity|].
  apply (setup_board_tiles_from_corpus Demo.rng
           (init_game Demo.corpus Demo.corpus_categories)).
  vm_compute. reflexivity.
Defined.

Lemma setup_board_one_tile_per_point_value_witness :
  ∃ g',
    setup_board Demo.rng (init_game Demo.corpus Demo.corpus_categories) = Ok g'
    ∧ coordinate <$> board (state g')
      = [("Science", 200); ("Science", 400); ("History", 200)].
Proof.
  eexists. split; [vm_compute; reflexivity|].
  etrans.
  - apply (setup_board_one_tile_per_point_value Demo.rng
             (init_game Demo.corpus Demo.corpus_categories)).
    vm_compute. reflexivity.
  - vm_compute. reflexivity.
Defined.

Lemma setup_board_coordinates_distinct_witness :
  ∃ g',
    setup_board Demo.rng (init_game Demo.corpus Demo.corpus_categories) = Ok g'
    ∧ NoDup (sample_categories Demo.rng)
    ∧ NoDup (coordinate <$> board (state g'))
    ∧ NoDup (board (state g')).
Proof.
  eexists. split; [vm_compute; reflexivity|].
  assert (Hnodup : NoDup (sample_categories Demo.rng))
    by (refine (bool_decide_unpack _ _); vm_compute; exact I).
  split; [exact Hnodup|].
  apply (setup_board_coordinates_distinct Demo.rng
           (init_game Demo.corpus Demo.corpus_categories));
    [vm_compute; reflexivity|exact Hnodup].
Defined.


(** The run in which the Science $200 tile is posted and times out. *)
Lemma board_tiles_come_from_the_corpus_witness :
  ∃ w,
    Demo.play [Demo.start; Demo.choose_mars Demo.no_luck;
               timeout_fires Demo.mars] = Ok w
    ∧ board (state (game w)) = [Demo.gold; Demo.rome]
    ∧ ∀ q, q ∈ board (state (game w)) →
           q ∈ Demo.corpus ∧ category_id q ∈ categories (state (game w)).
Proof.
  eexists. split; [vm_compute; reflexivity|]. split; [reflexivity|].
  apply (@board_tiles_come_from_the_corpus ascii_text
           [Demo.start; Demo.choose_mars Demo.no_luck; timeout_fires Demo.mars]
           Demo.corpus Demo.corpus_categories).
  vm_compute. reflexivity.
Defined.

Lemma round_is_always_one_witness :
  ∃ w,
    Demo.play (Demo.daily_double_game ++ [Demo.start]) = Ok w
    ∧ round (state (game w)) = 1
    ∧ ∀ wager score,
        clamp_wager wager score (round (state (game w)))
        = 1 `max` (wager `min` (score `max` 1000)).
Proof.
  eexists. split; [vm_compute; reflexivity|].
  apply (@round_is_always_one ascii_text
           (Demo.daily_double_game ++ [Demo.start])
           Demo.corpus Demo.corpus_categories).
  vm_compute. reflexivity.
Defined.

Lemma only_the_timeout_removes_tiles_witness :
  ∃ w w',
    Demo.play [Demo.start; Demo.choose_mars Demo.no_luck] = Ok w
    ∧ @step ascii_text (timeout_fires Demo.mars) w = Ok w'
    ∧ board (state (game w')) = [Demo.gold; Demo.rome]
    ∧ (board (state (game w')) = board (state (game w))
       ∨ (∃ rng chat, timeout_fires Demo.mars = startjeopardy rng chat)
       ∨ (∃ q, timeout_fires Demo.mars = timeout_fires q
               ∧ q ∈ sleeping w
               ∧ q ∈ board (state (game w))
               ∧ board (state (game w'))
                 = list_remove q (board (state (game w))))).
Proof.
  do 2 eexists. split; [vm_compute; reflexivity|].
  split; [vm_compute; reflexivity|]. split; [reflexivity|].
  apply (@only_the_timeout_removes_tiles ascii_text). vm_compute. reflexivity.
Defined.

(** The Science $200 tile was a Daily Double; chosen again with the same
    draw it is posted. *)
Lemma daily_double_at_most_once_witness :
  let w := Replay.world_after [Demo.start; Demo.choose_mars Demo.luck] in
  let es := [dailydouble ["5"; "mars"] Demo.ann (Demo.chat Demo.ann)] in
  let w' := Replay.and_then (dailydouble ["5"; "mars"] Demo.ann (Demo.chat Demo.ann)) w in
  let r := post_question Demo.mars (game w') in
  coordinate Demo.mars ∈ daily_double_used (state (game w))
  ∧ @run ascii_text es w = Ok w'
  ∧ @handle_choose_question ascii_text ["choose"; "200"; "science"]
      ["choose"; "200"; "Science"] Demo.ann (Demo.chat Demo.ann) Demo.luck
      (game w') = Ok r
  ∧ current_question (state r.1) = Some Demo.mars
  ∧ coordinate Demo.mars ∈ daily_double_used (state (game w'))
  ∧ (r.1 = game w' ∨ (r.1, r.2) = post_question Demo.mars (game w')).
Proof.
  intros w es w' r.
  assert (H1 : coordinate Demo.mars ∈ daily_double_used (state (game w)))
    by (refine (bool_decide_unpack _ _); vm_compute; exact I).
  assert (H2 : @run ascii_text es w = Ok w') by (vm_compute; reflexivity).
  assert (H3 : @handle_choose_question ascii_text ["choose"; "200"; "science"]
                 ["choose"; "200"; "Science"] Demo.ann (Demo.chat Demo.ann)
                 Demo.luck (game w') = Ok (r.1, r.2))
    by (vm_compute; reflexivity).
  assert (H4 : current_question (state r.1) = Some Demo.mars) by reflexivity.
  split_and!; [exact H1|exact H2|exact H3|exact H4|..];
    apply (@daily_double_at_most_once ascii_text es w w'
             ["choose"; "200"; "science"] ["choose"; "200"; "Science"]
             Demo.ann (Demo.chat Demo.ann) Demo.luck r.1 r.2 Demo.mars H1 H2 H3 H4).
Defined.

(** Ann's correct answer changes her score: the event is her answer. *)
Lemma a_score_changes_only_by_its_owner_witness :
  let w := Replay.world_after [Demo.start; Demo.choose_mars Demo.no_luck;
                               Demo.ann_buzzes] in
  let e := Demo.ann_answers_mars 105%Q in
  let w' := Replay.and_then e w in
  @step ascii_text e w = Ok w'
  ∧ dict_lookup (scores (state (game w'))) (py_str Demo.ann)
    ≠ dict_lookup (scores (state (game w))) (py_str Demo.ann)
  ∧ ((∃ rng chat, e = startjeopardy rng chat)
     ∨ (∃ command2 chat now, e = answer command2 Demo.ann chat now)
     ∨ (∃ parts chat, e = dailydouble parts Demo.ann chat)
     ∨ (∃ draw inbox, e = final_jeopardy draw inbox)).
Proof.
  intros w e w'.
  assert (H1 : @step ascii_text e w = Ok w') by (vm_compute; reflexivity).
  assert (H2 : dict_lookup (scores (state (game w'))) (py_str Demo.ann)
               ≠ dict_lookup (scores (state (game w))) (py_str Demo.ann))
    by (vm_compute; discriminate).
  split_and!; [exact H1|exact H2|].
  exact (@a_score_changes_only_by_its_owner ascii_text e w w' Demo.ann H1 H2).
Defined.

(** Ann answers the Science $200 tile at second 105 and again at 110. *)
Lemma second_answer_after_a_correct_one_raises_witness :
  let g := Demo.game_after [Demo.start; Demo.choose_mars Demo.no_luck;
                            Demo.ann_buzzes] in
  buzzed_in (state g) = Some Demo.ann
  ∧ (105 - buzzed_in_time (state g) <= 20)%Q
  ∧ current_question (state g) = Some Demo.mars
  ∧ @is_correct ascii_text (drop 1 ["answer"; "mars"]) Demo.mars
  ∧ (110 - buzzed_in_time (state g) <= 20)%Q
  ∧ ∃ g1 out1,
      @handle_answer ascii_text ["answer"; "mars"] Demo.ann (Demo.chat Demo.ann)
        105%Q g = Ok (g1, out1)
      ∧ @handle_answer ascii_text ["answer"; "mars"] Demo.ann (Demo.chat Demo.ann)
          110%Q g1 = Raise TypeError.
Proof.
  intros g.
  assert (H1 : buzzed_in (state g) = Some Demo.ann) by (vm_compute; reflexivity).
  assert (H2 : (105 - buzzed_in_time (state g) <= 20)%Q) by (vm_compute; discriminate).
  assert (H3 : current_question (state g) = Some Demo.mars) by (vm_compute; reflexivity).
  assert (H4 : @is_correct ascii_text (drop 1 ["answer"; "mars"]) Demo.mars)
    by (vm_compute; apply list_elem_of_here).
  assert (H5 : (110 - buzzed_in_time (state g) <= 20)%Q) by (vm_compute; discriminate).
  split_and!; [exact H1|exact H2|exact H3|exact H4|exact H5|].
  exact (@second_answer_after_a_correct_one_raises ascii_text
           ["answer"; "mars"] ["answer"; "mars"] Demo.ann (Demo.chat Demo.ann)
           (Demo.chat Demo.ann) 105%Q 110%Q g Demo.mars H1 H2 H3 H4 H5).
Defined.

(** Ann answers "venus": she falls to -200 and Bob may buzz. *)
Lemma wrong_answer_frees_the_question_witness :
  let g := Demo.game_after [Demo.start; Demo.choose_mars Demo.no_luck;
                            Demo.ann_buzzes] in
  buzzed_in (state g) = Some Demo.ann
  ∧ (105 - buzzed_in_time (state g) <= 20)%Q
  ∧ current_question (state g) = Some Demo.mars
  ∧ ¬ @is_correct ascii_text (drop 1 ["answer"; "venus"]) Demo.mars
  ∧ ∃ g1 out1,
      @handle_answer ascii_text ["answer"; "venus"] Demo.ann (Demo.chat Demo.ann)
        105%Q g = Ok (g1, out1)
      ∧ dict_lookup (scores (state g1)) (py_str Demo.ann)
        = Some (dict_get (scores (state g)) (py_str Demo.ann) 0 - 200)
      ∧ buzzed_in (state g1) = None.
Proof.
  intros g.
  assert (H1 : buzzed_in (state g) = Some Demo.ann) by (vm_compute; reflexivity).
  assert (H2 : (105 - buzzed_in_time (state g) <= 20)%Q) by (vm_compute; discriminate).
  assert (H3 : current_question (state g) = Some Demo.mars) by (vm_compute; reflexivity).
  assert (H4 : ¬ @is_correct ascii_text (drop 1 ["answer"; "venus"]) Demo.mars).
  { vm_compute. intros Hin. apply list_elem_of_singleton in Hin. discriminate. }
  split_and!; [exact H1|exact H2|exact H3|exact H4|].
  destruct (@wrong_answer_frees_the_question ascii_text ["answer"; "venus"]
              Demo.ann (Demo.chat Demo.ann) 105%Q g Demo.mars H1 H2 H3 H4)
    as (g1 & out1 & Hrun & Hscore & Hlock & _).
  by exists g1, out1.
Defined.

(** Ann holds 200 and registers twice. *)
Lemma register_is_idempotent_witness :
  let g := Demo.game_after [Demo.start; Demo.choose_mars Demo.no_luck;
                            Demo.ann_buzzes; Demo.ann_answers_mars 105%Q] in
  let g1 := Demo.game_after [Demo.start; Demo.choose_mars Demo.no_luck;
                             Demo.ann_buzzes; Demo.ann_answers_mars 105%Q;
                             register Demo.ann (Demo.chat Demo.ann)] in
  (∃ out1, handle_register Demo.ann (Demo.chat Demo.ann) g = Ok (g1, out1))
  ∧ final_registered (state g1) = ["7"]
  ∧ ∃ notice,
      handle_register Demo.ann (Demo.chat Demo.ann) g1
      = Ok (g1, [send_message notice (Demo.chat Demo.ann)]).
Proof.
  intros g g1.
  assert (H1 : handle_register Demo.ann (Demo.chat Demo.ann) g
               = Ok (g1, [send_message
                            "You've registered for Final Jeopardy! Your current score is $200."
                            (Demo.chat Demo.ann)]))
    by (vm_compute; reflexivity).
  split; [by eexists|]. split; [vm_compute; reflexivity|].
  exact (proj1 (register_is_idempotent Demo.ann (Demo.chat Demo.ann)
                  (Demo.chat Demo.ann) g g1 _ H1)).
Defined.

(** The Science $200 tile is posted, then the $400 one, and the thread of
    the first wakes up. *)
Lemma stale_timeout_clears_the_next_question_witness :
  let g := Demo.game_after [Demo.start] in
  let g2 := (post_question Demo.gold (post_question Demo.mars g).1).1 in
  let g3 := (buzz_timeout Demo.mars g2).1 in
  truthy (buzzed_in (state g)) = false
  ∧ Demo.mars ≠ Demo.gold
  ∧ Demo.mars ∈ board (state g)
  ∧ Demo.gold ∈ board (state g)
  ∧ current_question (state g2) = Some Demo.gold
  ∧ current_question (state g3) = None
  ∧ board (state g3) = [Demo.gold; Demo.rome]
  ∧ buzz_timeout Demo.gold g3 = (g3, []).
Proof.
  intros g g2 g3.
  assert (H1 : truthy (buzzed_in (state g)) = false) by (vm_compute; reflexivity).
  assert (H2 : Demo.mars ≠ Demo.gold) by discriminate.
  assert (H3 : Demo.mars ∈ board (state g))
    by (refine (bool_decide_unpack _ _); vm_compute; exact I).
  assert (H4 : Demo.gold ∈ board (state g))
    by (refine (bool_decide_unpack _ _); vm_compute; exact I).
  split_and!; [exact H1|exact H2|exact H3|exact H4|..];
    destruct (stale_timeout_clears_the_next_question Demo.mars Demo.gold g
                H1 H2 H3 H4) as (Hq2 & Hq3 & Hb & _ & _ & Hidle).
  - exact Hq2.
  - exact Hq3.
  - etrans; [exact Hb|]. vm_compute. reflexivity.
  - exact Hidle.
Defined.

(** Ann, whose id is 7, buzzes on the posted tile. *)
Lemma buzz_stops_the_timeout_unless_user_zero_witness :
  let g := Demo.game_after [Demo.start; Demo.choose_mars Demo.no_luck] in
  buzzed_in (state g) = None
  ∧ is_Some (current_question (state g))
  ∧ buzz_open (state g) = true
  ∧ ∃ g1,
      handle_buzz Demo.ann (Demo.chat Demo.ann) 100%Q g
      = Ok (g1, [buzz_notice Demo.ann])
      ∧ buzz_timeout Demo.mars g1 = (g1, []).
Proof.
  intros g.
  assert (H1 : buzzed_in (state g) = None) by (vm_compute; reflexivity).
  assert (H2 : is_Some (current_question (state g))) by (vm_compute; eauto).
  assert (H3 : buzz_open (state g) = true) by (vm_compute; reflexivity).
  split_and!; [exact H1|exact H2|exact H3|].
  destruct (buzz_stops_the_timeout_unless_user_zero Demo.ann (Demo.chat Demo.ann)
              100%Q g Demo.mars H1 H2 H3) as (g1 & Hrun & Hstop & _).
  exists g1. split; [exact Hrun|]. apply Hstop. discriminate.
Defined.

(** The thread of the posted Science $200 tile wakes up. *)
Lemma timed_out_tile_cannot_be_chosen_witness :
  let g := Demo.game_after [Demo.start; Demo.choose_mars Demo.no_luck] in
  let g' := (buzz_timeout Demo.mars g).1 in
  truthy (buzzed_in (state g)) = false
  ∧ buzz_open (state g) = true
  ∧ NoDup (board (state g))
  ∧ (Demo.mars ∉ board (state g'))
  ∧ current_question (state g') = None.
Proof.
  intros g g'.
  assert (H1 : truthy (buzzed_in (state g)) = false) by (vm_compute; reflexivity).
  assert (H2 : buzz_open (state g) = true) by (vm_compute; reflexivity).
  assert (H3 : NoDup (board (state g)))
    by (refine (bool_decide_unpack _ _); vm_compute; exact I).
  split_and!; [exact H1|exact H2|exact H3|..];
    destruct (@timed_out_tile_cannot_be_chosen ascii_text Demo.mars g H1 H2 H3)
      as (Hgone & _ & Hidle & _).
  - exact Hgone.
  - exact Hidle.
Defined.

(** Ann holds 200, is the only one registered and wagers 500 with the
    right answer. *)
Lemma final_jeopardy_touches_only_the_registered_witness :
  let es := removelast Demo.whole_game in
  let w := Replay.world_after es in
  let w' := Replay.and_then (final_jeopardy 0 Demo.ann_replies) w in
  @run ascii_text es (boot Demo.corpus Demo.corpus_categories) = Ok w
  ∧ (∃ out, @start_final_jeopardy ascii_text 0 Demo.ann_replies (game w)
            = Ok (game w', out))
  ∧ (scores (state (game w'))).*1 = (scores (state (game w))).*1
  ∧ dict_get (scores (state (game w))) "7" 0 = 200
  ∧ dict_get (scores (state (game w'))) "7" 0 = 400
  ∧ 0 ≤ dict_get (scores (state (game w'))) "7" 0
      ≤ 2 * dict_get (scores (state (game w))) "7" 0.
Proof.
  intros es w w'.
  assert (H1 : @run ascii_text es (boot Demo.corpus Demo.corpus_categories) = Ok w)
    by (vm_compute; reflexivity).
  assert (H2 : ∃ out, @start_final_jeopardy ascii_text 0 Demo.ann_replies (game w)
                      = Ok (game w', out))
    by (eexists; vm_compute; reflexivity).
  split_and!; [exact H1|exact H2|..]; destruct H2 as [out H2];
    destruct (@final_jeopardy_touches_only_the_registered ascii_text es
                Demo.corpus Demo.corpus_categories w 0%nat Demo.ann_replies
                (game w') out H1 H2) as (Hkeys & _ & _ & _ & Hscores).
  - exact Hkeys.
  - vm_compute. reflexivity.
  - vm_compute. reflexivity.
  - destruct (Hscores "7") as [_ Hb].
    destruct Hb as [Hlo _]; [vm_compute; discriminate|exact Hlo].
  - destruct (Hscores "7") as [_ Hb].
    destruct Hb as [_ Hhi]; [vm_compute; discriminate|exact Hhi].
Defined.

Lemma dailydouble_message_is_never_scored_witness :
  let g := Demo.game_after [Demo.start; Demo.choose_mars Demo.luck] in
  let env := {| clock := 100%Q; random_number := Demo.no_luck;
                board_draw := Demo.rng |} in
  py_startswith (ascii_lower "!DailyDouble 500 mars") "!dailydouble" = true
  ∧ ∃ notice,
      @check_for_commands ascii_text "!DailyDouble 500 mars" Demo.ann env g
      = Ok (g, [send_message notice (DM (py_str Demo.ann))]).
Proof.
  intros g env.
  assert (H1 : py_startswith (ascii_lower "!DailyDouble 500 mars") "!dailydouble"
               = true) by (vm_compute; reflexivity).
  split; [exact H1|].
  exact (dailydouble_message_is_never_scored "!DailyDouble 500 mars" Demo.ann
           env g H1).
Defined.

(** * The number game of the poll bot *)

Section number_game_facts.
Import NumberGame.
Context `{PyText}.

Lemma number_game_perform_in_range c m : fair c → in_range m → in_range (perform c m).
Proof.
  intros Hfair Hm. destruct c as [drawn max_num|text]; simpl.
  - unfold start_game. destruct (game_active m) eqn:Hactive; [done|].
    destruct (py_int max_num) as [n|] eqn:Hn; [|done].
    destruct (Z.ltb_spec n 1); simpl; [done|].
    destruct (Z.gtb_spec n 10000); simpl; [done|].
    intros _. simpl. specialize (Hfair n Hn). lia.
  - unfold make_guess. destruct (game_active m) eqn:Hactive; simpl; [|done].
    repeat case_match; done.
Qed.

Lemma number_game_after_in_range calls : Forall fair calls → in_range (after calls).
Proof.
  unfold after. intros Hfair.
  assert (Hinit : in_range init) by (intros [=]).
  revert Hinit. generalize init.
  induction Hfair as [|c calls Hc Hcalls IH]; intros m Hm; simpl; [done|].
  apply IH. by apply number_game_perform_in_range.
Qed.

(** After any sequence of calls with fair draws, an active game has its
    number between 1 and its maximum, which is at most 10000; so the
    right guess is never turned away as out of range: it is answered
    "Correct!" and ends the game, after which any guess is refused. *)
Theorem number_game_right_guess_wins calls text :
  Forall fair calls →
  game_active (after calls) = true →
  py_int text = Some (correct_number (after calls)) →
  let m := after calls in
  1 ≤ correct_number m ≤ max_number m
  ∧ max_number m ≤ 10000
  ∧ ∃ m',
      make_guess text m
      = (m', (true, "Correct! The answer was "
                    +:+ py_str (correct_number m) +:+ "!"))
      ∧ game_active m' = false
      ∧ (∀ text', make_guess text' m'
                  = (m', (false, "No number game is currently active"))).
Proof.
  intros Hfair Hactive Hint m. subst m.
  destruct (number_game_after_in_range calls Hfair Hactive) as [Hsecret Hmax].
  split; [done|]. split; [done|].
  unfold make_guess. rewrite Hactive, Hint. simpl.
  destruct (Z.ltb_spec (correct_number (after calls)) 1); [lia|].
  destruct (Z.gtb_spec (correct_number (after calls)) (max_number (after calls)));
    [lia|]. simpl.
  rewrite Z.eqb_refl. eexists. split; [reflexivity|]. by split.
Qed.

(** Nothing changes the number or the maximum of an active game, a
    second [start_game] included, and only a guess that reads as the
    number itself ends it. *)
Theorem number_game_keeps_its_number c m :
  game_active m = true →
  correct_number (perform c m) = correct_number m
  ∧ max_number (perform c m) = max_number m
  ∧ (game_active (perform c m) = false →
     ∃ text, c = guess text ∧ py_int text = Some (correct_number m)).
Proof.
  intros Hactive.
  assert (Hstill : ∀ P : Prop, game_active m = false → P)
    by (intros P Hf; rewrite Hactive in Hf; discriminate).
  destruct c as [drawn max_num|text]; simpl.
  - unfold start_game. rewrite Hactive. simpl. split_and!; [done..|apply Hstill].
  - unfold make_guess. rewrite Hactive. simpl.
    destruct (py_int text) as [n|] eqn:Hint; [|split_and!; [done..|apply Hstill]].
    destruct (_ || _); [split_and!; [done..|apply Hstill]|].
    destruct (Z.eqb_spec n (correct_number m)) as [->|Hne].
    + split_and!; [done..|]. intros _. by exists text.
    + destruct (n >? correct_number m); split_and!; try done; apply Hstill.
Qed.

End number_game_facts.

(** A game up to 100 whose number is 42. *)
Lemma number_game_right_guess_wins_witness :
  let calls := [NumberGame.start 42 "100"; NumberGame.guess "50"] in
  Forall (@NumberGame.fair ascii_text) calls
  ∧ NumberGame.game_active (@NumberGame.after ascii_text calls) = true
  ∧ ascii_int "42" = Some (NumberGame.correct_number (@NumberGame.after ascii_text calls))
  ∧ ∃ m',
      @NumberGame.make_guess ascii_text "42" (@NumberGame.after ascii_text calls)
      = (m', (true, "Correct! The answer was 42!"))
      ∧ NumberGame.game_active m' = false.
Proof.
  intros calls.
  assert (H1 : Forall (@NumberGame.fair ascii_text) calls).
  { constructor; [|constructor; [exact I|constructor]].
    intros k Hk _. vm_compute in Hk. injection Hk as <-. lia. }
  assert (H2 : NumberGame.game_active (@NumberGame.after ascii_text calls) = true)
    by (vm_compute; reflexivity).
  assert (H3 : ascii_int "42"
               = Some (NumberGame.correct_number (@NumberGame.after ascii_text calls)))
    by (vm_compute; reflexivity).
  split_and!; [exact H1|exact H2|exact H3|].
  destruct (@number_game_right_guess_wins ascii_text calls "42"
              H1 H2 H3) as (_ & _ & m' & Hrun & Hend & _).
  exists m'. split; [|exact Hend]. rewrite Hrun. vm_compute. reflexivity.
Defined.

Lemma number_game_keeps_its_number_witness :
  let m := @NumberGame.after ascii_text [NumberGame.start 42 "100"] in
  let c := NumberGame.start 7 "10" in
  NumberGame.game_active m = true
  ∧ NumberGame.correct_number (@NumberGame.perform ascii_text c m) = 42
  ∧ NumberGame.max_number (@NumberGame.perform ascii_text c m) = 100.
Proof.
  intros m c.
  assert (H1 : NumberGame.game_active m = true) by (vm_compute; reflexivity).
  split; [exact H1|].
  destruct (@number_game_keeps_its_number ascii_text c m H1)
    as (Hn & Hmax & _).
  split; [rewrite Hn|rewrite Hmax]; vm_compute; reflexivity.
Defined.
